(** * Chunk-and-commit segmentation controller of the STT server

    A shallow embedding of [src/python/stt_server.py]: the [ChunkTracker]
    class, the commit policy, and the per-request entry point
    [transcribe_buffer_chunked] (the spec's [process_chunk]).

    Modelling choices.
    - Python [int]s are [Z]; [len(x)] is [len x : Z].
    - Audio buffers (numpy float32 arrays, after base64 decoding) are lists
      of rationals; RMS values and thresholds are rationals compared with
      the exact order of [Q].  Floating-point rounding is not modelled.
    - [np.sqrt(np.mean(chunk ** 2))] is a parameter [rms] of the
      development: every general theorem holds for every RMS function.
      Concrete scenarios use [rms_q], an exact rational RMS whose square
      root is rounded down to twelve decimal digits.
    - The transcription capability is an oracle given with each request:
      it either raises or returns a text.  [_transcribe_audio] builds such
      an oracle from the raw output of the acoustic model, through
      [_filter_unk_tokens].
    - Text is an ASCII [string]; [str.strip()] removes Python's ASCII
      whitespace.
    - The server loop only serves requests once the model is loaded, so the
      [_model_loaded] test at the head of the entry point always passes.
    - The response fields [inference_time_ms] and [audio_duration_ms] (wall
      clock and float arithmetic) and the writes to stderr are left out. *)

From Stdlib Require Import ZArith QArith Qround List String Ascii Bool Lia.
Import ListNotations.

Local Open Scope Z_scope.

(** ** Python helpers *)

Definition len {A : Type} (l : list A) : Z := Z.of_nat (List.length l).

(** [l[s:]] with Python's treatment of a negative start. *)
Definition slice_from {A : Type} (s : Z) (l : list A) : list A :=
  if s <? 0
  then skipn (Z.to_nat (Z.max 0 (len l + s))) l
  else skipn (Z.to_nat s) l.

(** Comparisons on rationals, as booleans. *)
Definition Qltb (a b : Q) : bool :=
  match Qcompare a b with Lt => true | _ => false end.

Definition Qleb (a b : Q) : bool :=
  match Qcompare a b with Gt => false | _ => true end.

(** [sum(xs)]: Python folds from the left, starting at 0. *)
Definition py_sum (xs : list Q) : Q := fold_left Qplus xs 0%Q.

(** ASCII whitespace as [str.strip()] sees it:
    TAB, LF, VT, FF, CR, FS, GS, RS, US and space. *)
Definition is_space (c : ascii) : bool :=
  let n := Z.of_nat (nat_of_ascii c) in
  ((9 <=? n) && (n <=? 13)) || ((28 <=? n) && (n <=? 32)).

Fixpoint lstrip (s : string) : string :=
  match s with
  | EmptyString => EmptyString
  | String c r => if is_space c then lstrip r else s
  end.

(** Drops trailing whitespace: a character is kept when it is not
    whitespace or when something remains after it. *)
Fixpoint rstrip (s : string) : string :=
  match s with
  | EmptyString => EmptyString
  | String c r =>
      match rstrip r with
      | EmptyString => if is_space c then EmptyString else String c EmptyString
      | r' => String c r'
      end
  end.

Definition strip (s : string) : string := rstrip (lstrip s).

(** Truth value of a [str]: non-empty. *)
Definition truthy (s : string) : bool :=
  match s with EmptyString => false | _ => true end.

Fixpoint last_char (s : string) : option ascii :=
  match s with
  | EmptyString => None
  | String c EmptyString => Some c
  | String _ r => last_char r
  end.

(** [s.endswith(' ')]. *)
Definition endswith_space (s : string) : bool :=
  match last_char s with
  | Some c => Ascii.eqb c " "%char
  | None => false
  end.

(** The claim's wording: the text ends in a whitespace character. *)
Definition ends_in_whitespace (s : string) : bool :=
  match last_char s with
  | Some c => is_space c
  | None => false
  end.

(** ** Constants *)

Definition SAMPLE_RATE : Z := 16000.
Definition SILENCE_THRESHOLD : Q := 15 # 1000.
Definition SILENCE_SAMPLES : Z := 5600.        (* int(0.35 * 16000) *)
Definition FORCE_COMMIT_SECONDS : Z := 8.
Definition FORCE_COMMIT_SAMPLES : Z := FORCE_COMMIT_SECONDS * SAMPLE_RATE.
Definition MIN_CHUNK_SAMPLES : Z := 12800.     (* int(0.8 * 16000) *)
Definition MINIMUM_SPEECH_RMS : Q := 25 # 1000.
Definition MIN_REQUEST_SAMPLES : Z := 4000.

(** ** The chunk tracker *)

Record ChunkTracker : Type := mkTracker {
  committed_text : string;
  committed_samples : Z;
  last_commit_sample : Z;
  silence_sample_count : Z;
  pending_audio : option (list Q);
  speech_rms_history : list Q;
  average_speech_rms : Q
}.

(** [ChunkTracker.__init__]. *)
Definition new_tracker : ChunkTracker :=
  {| committed_text := "";
     committed_samples := 0;
     last_commit_sample := 0;
     silence_sample_count := 0;
     pending_audio := None;
     speech_rms_history := [];
     average_speech_rms := 8 # 100 |}.

(** [ChunkTracker.reset]. *)
Definition reset (t : ChunkTracker) : ChunkTracker :=
  {| committed_text := "";
     committed_samples := 0;
     last_commit_sample := 0;
     silence_sample_count := 0;
     pending_audio := None;
     speech_rms_history :=
       if 100 <? len (speech_rms_history t)
       then slice_from (-50) (speech_rms_history t)
       else speech_rms_history t;
     average_speech_rms := average_speech_rms t |}.

(** [ChunkTracker.should_force_commit]. *)
Definition should_force_commit (t : ChunkTracker) (current_sample : Z) : bool :=
  let samples_since_commit := current_sample - last_commit_sample t in
  FORCE_COMMIT_SAMPLES <=? samples_since_commit.

(** [ChunkTracker.should_commit]. *)
Definition should_commit (t : ChunkTracker) (current_sample : Z)
    (has_pause : bool) : bool :=
  let samples_since_commit := current_sample - last_commit_sample t in
  if samples_since_commit <? MIN_CHUNK_SAMPLES then false
  else has_pause || should_force_commit t current_sample.

(** [ChunkTracker.commit]. *)
Definition commit (t : ChunkTracker) (text : string) (sample_position : Z)
    : ChunkTracker :=
  let ct :=
    if truthy (strip text) then
      let spaced :=
        if truthy (committed_text t) && negb (endswith_space (committed_text t))
        then (committed_text t ++ " ")%string
        else committed_text t in
      (spaced ++ strip text)%string
    else committed_text t in
  {| committed_text := ct;
     committed_samples := sample_position;
     last_commit_sample := sample_position;
     silence_sample_count := 0;
     pending_audio := None;
     speech_rms_history := speech_rms_history t;
     average_speech_rms := average_speech_rms t |}.

(** The text a commit appends to the committed text. *)
Definition commit_extension (t : ChunkTracker) (text : string) : string :=
  if truthy (strip text) then
    ((if truthy (committed_text t) && negb (endswith_space (committed_text t))
      then " " else "") ++ strip text)%string
  else ""%string.

(** The spec's wording of the commit policy, as a function of the elapsed
    sample count (reference definitions for the refinement statement). *)
Definition spec_should_force_commit (elapsed : Z) : bool :=
  128000 <=? elapsed.

Definition spec_should_commit (elapsed : Z) (has_pause : bool) : bool :=
  if elapsed <? 12800 then false
  else has_pause || spec_should_force_commit elapsed.

(** A concrete RMS on rationals: exact mean of squares, square root
    rounded down to twelve decimal digits. *)
Definition sum_sq (xs : list Q) : Q :=
  fold_left (fun a x => Qred (a + x * x)) xs 0%Q.

Definition mean_sq (xs : list Q) : Q :=
  Qred (sum_sq xs / inject_Z (len xs)).

Definition Qsqrt_down (q : Q) : Q :=
  let scale := (10 ^ 12)%Z in
  Qred (Z.sqrt (Qnum q * Zpos (Qden q) * scale * scale)
        # (Qden q * Z.to_pos scale)).

Definition rms_q (xs : list Q) : Q := Qsqrt_down (mean_sq xs).

(** ** The transcription capability and the response *)

(** What one call of [_transcribe_audio] does: raise, or return a text. *)
Inductive Transcription : Type :=
| Raised (error : string)
| Returned (text : string).

Definition Transcriber : Type := list Q -> Transcription.

Inductive CommitReason : Type := pause | force.

(** The response dictionary.  A key that a path leaves out is [None]. *)
Inductive Response : Type :=
| ErrorResult (error : string)
| SuccessResult (r_committed_text r_partial_text : string)
                (r_is_final : bool) (r_commit_sample : Z)
                (r_commit_reason : option CommitReason)
                (r_skipped_low_volume : option bool).

(** What a request leaves behind: the response, the tracker, and the audio
    spans handed to the transcription capability during the request. *)
Record Outcome : Type := mkOutcome {
  response : Response;
  tracker : ChunkTracker;
  transcribed : list (list Q)
}.

Definition is_final_of (r : Response) : bool :=
  match r with
  | SuccessResult _ _ f _ _ _ => f
  | ErrorResult _ => false
  end.

(** Field updates of the tracker object. *)
Definition set_silence_sample_count (t : ChunkTracker) (n : Z) : ChunkTracker :=
  {| committed_text := committed_text t;
     committed_samples := committed_samples t;
     last_commit_sample := last_commit_sample t;
     silence_sample_count := n;
     pending_audio := pending_audio t;
     speech_rms_history := speech_rms_history t;
     average_speech_rms := average_speech_rms t |}.

Definition set_calibration (t : ChunkTracker) (h : list Q) (a : Q)
    : ChunkTracker :=
  {| committed_text := committed_text t;
     committed_samples := committed_samples t;
     last_commit_sample := last_commit_sample t;
     silence_sample_count := silence_sample_count t;
     pending_audio := pending_audio t;
     speech_rms_history := h;
     average_speech_rms := a |}.

(** The history after [append(r)] and the capacity check with [pop(0)]. *)
Definition push_history (h : list Q) (r : Q) : list Q :=
  let h1 := (h ++ [r])%list in
  if 50 <? len h1 then tl h1 else h1.

(** [sum(h) / len(h)]. *)
Definition mean (h : list Q) : Q := (py_sum h / inject_Z (len h))%Q.

Section Controller.

(** [np.sqrt(np.mean(audio_chunk ** 2))]. *)
Variable rms : list Q -> Q.

(** [ChunkTracker.detect_silence]: the updated tracker and the returned
    pause flag. *)
Definition detect_silence (t : ChunkTracker) (audio_chunk : list Q)
    : ChunkTracker * bool :=
  let r := rms audio_chunk in
  let is_silence := Qltb r SILENCE_THRESHOLD in
  let t' :=
    if is_silence then
      set_silence_sample_count t (silence_sample_count t + len audio_chunk)
    else
      let t0 := set_silence_sample_count t 0 in
      if Qltb (SILENCE_THRESHOLD * 2) r then
        let h := push_history (speech_rms_history t0) r in
        set_calibration t0 h (mean h)
      else t0 in
  (t', SILENCE_SAMPLES <=? silence_sample_count t').

(** [ChunkTracker.is_low_volume_noise]. *)
Definition is_low_volume_noise (t : ChunkTracker) (audio_chunk : list Q)
    : bool :=
  let r := rms audio_chunk in
  if Qleb r SILENCE_THRESHOLD then false
  else if Qltb r MINIMUM_SPEECH_RMS then true
  else
    let low_volume_threshold := (average_speech_rms t * (4 # 10))%Q in
    if Qltb r low_volume_threshold then true else false.

(** The uncommitted slice of the request's audio. *)
Definition uncommitted_of (t : ChunkTracker) (full_audio : list Q) : list Q :=
  let uncommitted_start := committed_samples t in
  if uncommitted_start <? len full_audio
  then slice_from uncommitted_start full_audio
  else full_audio.

(** The last second (at most) of the uncommitted slice. *)
Definition tail_of (uncommitted_audio : list Q) : list Q :=
  let tail_samples := Z.min SAMPLE_RATE (len uncommitted_audio) in
  slice_from (- tail_samples) uncommitted_audio.

(** [transcribe_buffer_chunked], from the decoded audio on. *)
Definition transcribe_buffer_chunked (transcribe : Transcriber)
    (t : ChunkTracker) (full_audio : list Q) (total_samples : Z) : Outcome :=
  if len full_audio <? 4000 then
    mkOutcome (ErrorResult "Audio too short") t []
  else
    let uncommitted_audio := uncommitted_of t full_audio in
    if len uncommitted_audio <? 4000 then
      mkOutcome
        (SuccessResult (committed_text t) "" false (committed_samples t)
                       None None)
        t []
    else
      let tail_audio := tail_of uncommitted_audio in
      let (t1, has_pause) := detect_silence t tail_audio in
      if is_low_volume_noise t1 uncommitted_audio then
        mkOutcome
          (SuccessResult (committed_text t1) "" false (committed_samples t1)
                         None (Some true))
          t1 []
      else
        match transcribe uncommitted_audio with
        | Raised e => mkOutcome (ErrorResult e) t1 [uncommitted_audio]
        | Returned partial_text =>
            if should_commit t1 total_samples has_pause
               && truthy (strip partial_text)
            then
              let commit_reason := if has_pause then pause else force in
              let t2 := commit t1 partial_text total_samples in
              mkOutcome
                (SuccessResult (committed_text t2) "" true total_samples
                               (Some commit_reason) None)
                t2 [uncommitted_audio]
            else
              mkOutcome
                (SuccessResult (committed_text t1) partial_text false
                               (committed_samples t1) None None)
                t1 [uncommitted_audio]
        end.

(** The request reaches pause detection: the audio and its uncommitted
    slice both hold at least 4,000 samples. *)
Definition reaches_detection (t : ChunkTracker) (full_audio : list Q) : Prop :=
  4000 <= len full_audio /\ 4000 <= len (uncommitted_of t full_audio).

(** The tracker as pause detection leaves it during a request. *)
Definition detected (t : ChunkTracker) (full_audio : list Q) : ChunkTracker :=
  fst (detect_silence t (tail_of (uncommitted_of t full_audio))).

(** The pause flag of a request. *)
Definition pause_flag (t : ChunkTracker) (full_audio : list Q) : bool :=
  snd (detect_silence t (tail_of (uncommitted_of t full_audio))).

(** One request of a session: the capability's behaviour during the
    request, the audio and the caller's sample count. *)
Record Request : Type := mkRequest {
  req_transcribe : Transcriber;
  req_audio : list Q;
  req_total_samples : Z
}.

Definition serve (t : ChunkTracker) (q : Request) : Outcome :=
  transcribe_buffer_chunked (req_transcribe q) t (req_audio q)
                            (req_total_samples q).

(** The trackers after each call of a sequence of requests. *)
Fixpoint run (t : ChunkTracker) (qs : list Request) : list ChunkTracker :=
  match qs with
  | [] => []
  | q :: qs' => let t' := tracker (serve t q) in t' :: run t' qs'
  end.

(** Tracker states the server can be in: the freshly constructed tracker,
    closed under [reset_session] and [transcribe_buffer_chunked]. *)
Inductive reachable : ChunkTracker -> Prop :=
| reach_new : reachable new_tracker
| reach_reset (t : ChunkTracker) :
    reachable t -> reachable (reset t)
| reach_chunk (t : ChunkTracker) (transcribe : Transcriber)
              (full_audio : list Q) (total_samples : Z) :
    reachable t ->
    reachable (tracker (transcribe_buffer_chunked transcribe t full_audio
                                                  total_samples)).

End Controller.

(** The caller's sample counts never go down along a sequence. *)
Fixpoint nondecreasing (l : list Z) : Prop :=
  match l with
  | a :: ((b :: _) as r) => a <= b /\ nondecreasing r
  | _ => True
  end.

(** What every reachable tracker satisfies: the two boundary fields agree
    and are not negative, the history holds at most 50 entries, the
    committed text does not end in whitespace, and the baseline is the
    initial estimate as long as the history is empty. *)
Definition tracker_inv (t : ChunkTracker) : Prop :=
  committed_samples t = last_commit_sample t /\
  0 <= committed_samples t /\
  len (speech_rms_history t) <= 50 /\
  ends_in_whitespace (committed_text t) = false /\
  (speech_rms_history t = [] -> average_speech_rms t = 8 # 100).

(** The last [n] elements of a list. *)
Definition last_n {A : Type} (n : nat) (l : list A) : list A :=
  skipn (List.length l - n) l.

(** ** Concrete signals and capabilities for the scenarios *)

(** [n] samples of constant amplitude [a]; its RMS is [|a|]. *)
Definition tone (a : Q) (n : Z) : list Q := repeat a (Z.to_nat n).

(** A capability that returns the same text for every span. *)
Definition says (s : string) : Transcriber := fun _ => Returned s.

(** A capability that raises on every span. *)
Definition fails (e : string) : Transcriber := fun _ => Raised e.

(** One second of digital silence. *)
Definition quiet_second : list Q := tone 0 16000.

(** The tracker after one second of silence was committed as "hello". *)
Definition after_hello : ChunkTracker :=
  tracker (transcribe_buffer_chunked rms_q (says "hello") new_tracker
                                     quiet_second 16000).

(** A session of two requests: one second of silence heard as "hello",
    then two seconds of silence heard as "world". *)
Definition hello_request : Request :=
  mkRequest (says "hello") quiet_second 16000.

Definition world_request : Request :=
  mkRequest (says "world") (tone 0 32000) 32000.

(** The tracker after a loud second was heard, nothing being committed. *)
Definition after_loud : ChunkTracker :=
  tracker (transcribe_buffer_chunked rms_q (says "loud") new_tracker
                                     (tone (1 # 2) 16000) 16000).

(** 5,000 samples at amplitude 0.04 followed by 15,000 silent samples:
    the RMS of the whole span is 0.02, that of its last second 0.01. *)
Definition fading_noise : list Q := (tone (4 # 100) 5000 ++ tone 0 15000)%list.

(** One second at amplitude 0.5, and one second at amplitude 0.1. *)
Definition loud_second : list Q := tone (1 # 2) 16000.
Definition soft_second : list Q := tone (1 # 10) 16000.

(** The tracker after the loud second, once the session is reset. *)
Definition calibrated_then_reset : ChunkTracker := reset after_loud.

(** ** The text returned by the transcription capability *)

(** [re.sub(r'<unk>', '', text)]: one pass from the left, every occurrence
    of the token found on the way is dropped. *)
Fixpoint remove_unk (s : string) : string :=
  match s with
  | String "<" (String "u" (String "n" (String "k" (String ">" r)))) =>
      remove_unk r
  | String c r => String c (remove_unk r)
  | EmptyString => EmptyString
  end.

(** [re.sub(r'\s+', ' ', text)]: every maximal run of whitespace becomes
    one space; [in_run] tells that the previous character was whitespace. *)
Fixpoint collapse_ws (in_run : bool) (s : string) : string :=
  match s with
  | EmptyString => EmptyString
  | String c r =>
      if is_space c then
        if in_run then collapse_ws true r
        else String " " (collapse_ws true r)
      else String c (collapse_ws false r)
  end.

(** [_filter_unk_tokens]. *)
Definition _filter_unk_tokens (text : string) : string :=
  let filtered := remove_unk text in
  let filtered := collapse_ws false filtered in
  strip filtered.

(** [_transcribe_audio].  [model] stands for everything the function does
    up to the raw text: the test that the model is loaded, the writing of
    the temporary file and the model call.  It gives the raw text
    ([result.text] or [str(result)]) or the exception raised on the way,
    which the function lets through; the raw text is stripped and
    filtered. *)
Definition _transcribe_audio (model : list Q -> Transcription) : Transcriber :=
  fun audio =>
    match model audio with
    | Raised e => Raised e
    | Returned raw_text => Returned (_filter_unk_tokens (strip raw_text))
    end.

(** The text begins with a whitespace character. *)
Definition starts_with_whitespace (s : string) : bool :=
  match s with
  | String c _ => is_space c
  | EmptyString => false
  end.

(** Every whitespace character of the text is a space, and no whitespace
    character follows it. *)
Fixpoint single_spaced (s : string) : bool :=
  match s with
  | EmptyString => true
  | String c r =>
      (if is_space c
       then Ascii.eqb c " " && negb (starts_with_whitespace r)
       else true)
      && single_spaced r
  end.

(** A tracker whose committed text is "hi" followed by a line feed. *)
Definition newline_tracker : ChunkTracker :=
  {| committed_text := String "h" (String "i" (String "010" EmptyString));
     committed_samples := 0;
     last_commit_sample := 0;
     silence_sample_count := 0;
     pending_audio := None;
     speech_rms_history := [];
     average_speech_rms := 8 # 100 |}.

(** A request served by [_transcribe_audio] over a model whose raw output
    carries an unknown-token marker and stray whitespace. *)
Definition filtered_request : Request :=
  mkRequest (_transcribe_audio (says " hello  <unk> there ")) quiet_second
            16000.

(** ** Basic facts *)

Lemma Qltb_lt (a b : Q) : Qltb a b = true <-> (a < b)%Q.
Proof.
  unfold Qltb. rewrite Qlt_alt.
  destruct (a ?= b)%Q; split; congruence.
Qed.

Lemma Qltb_nlt (a b : Q) : Qltb a b = false <-> ~ (a < b)%Q.
Proof.
  rewrite <- Qltb_lt. destruct (Qltb a b); split; congruence.
Qed.

Lemma Qleb_le (a b : Q) : Qleb a b = true <-> (a <= b)%Q.
Proof.
  unfold Qleb. rewrite Qle_alt.
  destruct (a ?= b)%Q; split; congruence.
Qed.

Lemma Qleb_gt (a b : Q) : Qleb a b = false <-> (b < a)%Q.
Proof.
  unfold Qleb. change (b < a)%Q with (a > b)%Q. rewrite Qgt_alt.
  destruct (a ?= b)%Q; split; congruence.
Qed.

Lemma len_nonneg {A : Type} (l : list A) : 0 <= len l.
Proof. unfold len. lia. Qed.

Lemma len_app {A : Type} (l r : list A) : len (l ++ r) = len l + len r.
Proof. unfold len. rewrite length_app. lia. Qed.

Lemma len_tl {A : Type} (l : list A) : 0 < len l -> len (tl l) = len l - 1.
Proof. destruct l; unfold len; cbn [List.length tl]; lia. Qed.

Lemma len_skipn {A : Type} (n : nat) (l : list A) :
  len (skipn n l) = Z.max 0 (len l - Z.of_nat n).
Proof. unfold len. rewrite length_skipn. lia. Qed.


(** The tail window is the last [min(16000, len)] samples. *)
Lemma tail_of_last_n (u : list Q) :
  0 < len u ->
  tail_of u = last_n (Z.to_nat (Z.min 16000 (len u))) u.
Proof.
  intros Hu. unfold tail_of, slice_from, last_n, SAMPLE_RATE.
  destruct (Z.ltb_spec (- Z.min 16000 (len u)) 0) as [_|H]; [|lia].
  f_equal. unfold len in *. lia.
Qed.

Lemma len_tail_of (u : list Q) :
  0 < len u -> len (tail_of u) = Z.min 16000 (len u).
Proof.
  intros Hu. rewrite tail_of_last_n by assumption.
  unfold last_n. rewrite len_skipn. unfold len in *. lia.
Qed.

Lemma len_push_history (h : list Q) (r : Q) :
  len h <= 50 -> len (push_history h r) <= 50.
Proof.
  intros Hh. unfold push_history.
  assert (Hl : len (h ++ [r]) = len h + 1) by (rewrite len_app; reflexivity).
  destruct (Z.ltb_spec 50 (len (h ++ [r]))); [|lia].
  rewrite len_tl; lia.
Qed.

Lemma push_history_nonempty (h : list Q) (r : Q) : push_history h r <> [].
Proof.
  unfold push_history. intros He.
  assert (Hl : len (h ++ [r]) = len h + 1) by (rewrite len_app; reflexivity).
  pose proof (len_nonneg h) as Hn.
  destruct (Z.ltb_spec 50 (len (h ++ [r]))) as [Hc|Hc].
  - assert (Ht : len (tl (h ++ [r])) = len (h ++ [r]) - 1) by (apply len_tl; lia).
    rewrite He in Ht. unfold len at 1 in Ht. simpl in Ht. lia.
  - rewrite He in Hl. unfold len at 1 in Hl. simpl in Hl. lia.
Qed.

(** *** Strings *)

Lemma rstrip_no_trailing_space (s : string) :
  ends_in_whitespace (rstrip s) = false.
Proof.
  induction s as [|c r IH]; [reflexivity|].
  simpl. destruct (rstrip r) as [|c' r'] eqn:E.
  - destruct (is_space c) eqn:Ec; [reflexivity|].
    unfold ends_in_whitespace. simpl. exact Ec.
  - exact IH.
Qed.

Lemma last_char_app (a b : string) :
  b <> EmptyString -> last_char (a ++ b) = last_char b.
Proof.
  intros Hb. induction a as [|c a IH]; [reflexivity|].
  simpl. destruct (a ++ b)%string eqn:E.
  - destruct a; simpl in E; [congruence|discriminate].
  - exact IH.
Qed.

Lemma truthy_nonempty (s : string) : truthy s = true <-> s <> EmptyString.
Proof. destruct s; simpl; split; congruence. Qed.

Lemma endswith_space_whitespace (s : string) :
  endswith_space s = true -> ends_in_whitespace s = true.
Proof.
  unfold endswith_space, ends_in_whitespace.
  destruct (last_char s) as [c|]; [|discriminate].
  intros H. apply Ascii.eqb_eq in H. subst c. reflexivity.
Qed.

Lemma endswith_space_iff (s : string) :
  endswith_space s = true <-> exists p : string, s = (p ++ " ")%string.
Proof.
  split.
  - induction s as [|c r IH]; [discriminate|].
    unfold endswith_space. simpl. destruct r as [|c' r'].
    + intros H. apply Ascii.eqb_eq in H. subst c.
      exists ""%string. reflexivity.
    + intros H. destruct (IH H) as [p Hp].
      exists (String c p). simpl. rewrite <- Hp. reflexivity.
  - intros [p ->]. unfold endswith_space.
    rewrite last_char_app by discriminate. reflexivity.
Qed.

Lemma string_app_empty_r (s : string) : (s ++ "")%string = s.
Proof. induction s as [|c s IH]; simpl; [reflexivity|now rewrite IH]. Qed.

Lemma string_app_assoc (a b c : string) :
  ((a ++ b) ++ c)%string = (a ++ (b ++ c))%string.
Proof. induction a as [|x a IH]; simpl; [reflexivity|now rewrite IH]. Qed.

(** *** The commit policy *)

Lemma should_commit_elapsed (t : ChunkTracker) (cur : Z) (p : bool) :
  should_commit t cur p = true -> MIN_CHUNK_SAMPLES <= cur - last_commit_sample t.
Proof.
  unfold should_commit.
  destruct (Z.ltb_spec (cur - last_commit_sample t) MIN_CHUNK_SAMPLES);
    [discriminate|auto].
Qed.

(** *** The commit transition *)

Lemma commit_text (t : ChunkTracker) (text : string) (pos : Z) :
  committed_text (commit t text pos)
  = (committed_text t ++ commit_extension t text)%string.
Proof.
  unfold commit, commit_extension. simpl.
  destruct (truthy (strip text)).
  - destruct (truthy (committed_text t) && negb (endswith_space (committed_text t))).
    + apply string_app_assoc.
    + reflexivity.
  - symmetry. apply string_app_empty_r.
Qed.

Lemma commit_inv (t : ChunkTracker) (text : string) (pos : Z) :
  tracker_inv t -> last_commit_sample t <= pos ->
  tracker_inv (commit t text pos).
Proof.
  intros (Hb & Hn & Hh & Hw & Ha) Hp. unfold tracker_inv.
  repeat split; try (simpl; lia); [|exact Ha].
  unfold commit. cbn [committed_text].
  destruct (truthy (strip text)) eqn:Et; [|exact Hw].
  apply truthy_nonempty in Et.
  unfold ends_in_whitespace. rewrite last_char_app by exact Et.
  apply rstrip_no_trailing_space.
Qed.

Lemma reset_inv (t : ChunkTracker) : tracker_inv t -> tracker_inv (reset t).
Proof.
  intros (Hb & Hn & Hh & Hw & Ha). unfold tracker_inv, reset. simpl.
  destruct (Z.ltb_spec 100 (len (speech_rms_history t))); [lia|].
  repeat split; try lia. exact Ha.
Qed.

Lemma new_tracker_inv : tracker_inv new_tracker.
Proof.
  unfold tracker_inv. simpl. repeat split; try lia.
  unfold len; simpl; lia.
Qed.

Section Properties.

Variable rms : list Q -> Q.

(** *** Pause detection *)

Lemma detect_silence_boundary (t : ChunkTracker) (w : list Q) :
  let t1 := fst (detect_silence rms t w) in
  committed_text t1 = committed_text t /\
  committed_samples t1 = committed_samples t /\
  last_commit_sample t1 = last_commit_sample t /\
  pending_audio t1 = pending_audio t.
Proof.
  unfold detect_silence. simpl.
  destruct (Qltb (rms w) SILENCE_THRESHOLD); simpl; [tauto|].
  destruct (Qltb (SILENCE_THRESHOLD * 2) (rms w)); simpl; tauto.
Qed.

Lemma detect_silence_flag (t : ChunkTracker) (w : list Q) :
  snd (detect_silence rms t w)
  = (SILENCE_SAMPLES <=? silence_sample_count (fst (detect_silence rms t w))).
Proof. reflexivity. Qed.

Lemma detect_silence_inv (t : ChunkTracker) (w : list Q) :
  tracker_inv t -> tracker_inv (fst (detect_silence rms t w)).
Proof.
  intros (Hb & Hn & Hh & Hw & Ha).
  destruct (detect_silence_boundary t w) as (Ht & Hs & Hl & _).
  unfold tracker_inv. rewrite Ht, Hs, Hl.
  split; [exact Hb|]. split; [exact Hn|]. split; [|split; [exact Hw|]].
  - unfold detect_silence. simpl.
    destruct (Qltb (rms w) SILENCE_THRESHOLD); simpl; [exact Hh|].
    destruct (Qltb (SILENCE_THRESHOLD * 2) (rms w)); simpl; [|exact Hh].
    apply len_push_history. exact Hh.
  - unfold detect_silence. simpl.
    destruct (Qltb (rms w) SILENCE_THRESHOLD); simpl; [exact Ha|].
    destruct (Qltb (SILENCE_THRESHOLD * 2) (rms w)); simpl; [|exact Ha].
    intros He. exfalso. exact (push_history_nonempty _ _ He).
Qed.

Lemma should_commit_after_detect (t : ChunkTracker) (w : list Q)
      (cur : Z) (p : bool) :
  should_commit (fst (detect_silence rms t w)) cur p = should_commit t cur p.
Proof.
  destruct (detect_silence_boundary t w) as (_ & _ & Hl & _).
  unfold should_commit, should_force_commit. rewrite Hl. reflexivity.
Qed.

(** *** One request *)

(** The body of the entry point once pause detection is reached. *)
Lemma chunk_after_detection (tr : Transcriber) (t : ChunkTracker)
      (a : list Q) (total : Z) :
  reaches_detection t a ->
  let u := uncommitted_of t a in
  let t1 := detected rms t a in
  let p := pause_flag rms t a in
  transcribe_buffer_chunked rms tr t a total =
    if is_low_volume_noise rms t1 u then
      mkOutcome (SuccessResult (committed_text t1) "" false
                               (committed_samples t1) None (Some true)) t1 []
    else
      match tr u with
      | Raised e => mkOutcome (ErrorResult e) t1 [u]
      | Returned text =>
          if should_commit t1 total p && truthy (strip text) then
            mkOutcome
              (SuccessResult (committed_text (commit t1 text total)) "" true
                             total (Some (if p then pause else force)) None)
              (commit t1 text total) [u]
          else
            mkOutcome (SuccessResult (committed_text t1) text false
                                     (committed_samples t1) None None)
                      t1 [u]
      end.
Proof.
  intros [Ha Hu]. unfold transcribe_buffer_chunked, detected, pause_flag.
  destruct (Z.ltb_spec (len a) 4000); [lia|].
  destruct (Z.ltb_spec (len (uncommitted_of t a)) 4000); [lia|].
  destruct (detect_silence rms t (tail_of (uncommitted_of t a))) as [t1 p].
  reflexivity.
Qed.

(** Before pause detection the tracker is not touched and nothing is
    transcribed. *)
Lemma chunk_before_detection (tr : Transcriber) (t : ChunkTracker)
      (a : list Q) (total : Z) :
  ~ reaches_detection t a ->
  tracker (transcribe_buffer_chunked rms tr t a total) = t /\
  transcribed (transcribe_buffer_chunked rms tr t a total) = [].
Proof.
  intros Hn. unfold transcribe_buffer_chunked.
  destruct (Z.ltb_spec (len a) 4000); [split; reflexivity|].
  destruct (Z.ltb_spec (len (uncommitted_of t a)) 4000); [split; reflexivity|].
  exfalso. apply Hn. split; assumption.
Qed.

Lemma reaches_detection_dec (t : ChunkTracker) (a : list Q) :
  reaches_detection t a \/ ~ reaches_detection t a.
Proof. unfold reaches_detection. lia. Qed.

(** One request keeps the invariant, never moves the boundary back and
    only extends the committed text. *)
Lemma chunk_step (tr : Transcriber) (t : ChunkTracker) (a : list Q)
      (total : Z) :
  tracker_inv t ->
  let t' := tracker (transcribe_buffer_chunked rms tr t a total) in
  tracker_inv t' /\
  committed_samples t <= committed_samples t' /\
  exists ext, committed_text t' = (committed_text t ++ ext)%string.
Proof.
  intros Hinv.
  assert (Hsame : forall t1 : ChunkTracker,
             tracker_inv t1 ->
             committed_text t1 = committed_text t ->
             committed_samples t1 = committed_samples t ->
             tracker_inv t1 /\
             committed_samples t <= committed_samples t1 /\
             exists ext, committed_text t1 = (committed_text t ++ ext)%string).
  { intros t1 H1 Ht Hs. split; [exact H1|]. split; [lia|].
    exists ""%string. rewrite string_app_empty_r. exact Ht. }
  destruct (reaches_detection_dec t a) as [Hr|Hr].
  - cbv zeta. rewrite (chunk_after_detection tr t a total Hr). cbv zeta.
    pose proof (detect_silence_inv t (tail_of (uncommitted_of t a)) Hinv) as H1.
    destruct (detect_silence_boundary t (tail_of (uncommitted_of t a)))
      as (Ht & Hs & Hl & _).
    fold (detected rms t a) in H1, Ht, Hs, Hl.
    destruct (is_low_volume_noise rms (detected rms t a) (uncommitted_of t a));
      [apply Hsame; assumption|].
    destruct (tr (uncommitted_of t a)) as [e|text];
      [apply Hsame; assumption|].
    destruct (should_commit (detected rms t a) total (pause_flag rms t a)) eqn:Ec;
      [|apply Hsame; assumption].
    destruct (truthy (strip text)) eqn:Et; [|apply Hsame; assumption].
    cbn [andb tracker].
    apply should_commit_elapsed in Ec. unfold MIN_CHUNK_SAMPLES in Ec.
    destruct Hinv as (Hb & Hn & _).
    split; [apply commit_inv; [exact H1|lia]|].
    split; [cbn [commit committed_samples]; lia|].
    exists (commit_extension (detected rms t a) text).
    rewrite commit_text, Ht. reflexivity.
  - destruct (chunk_before_detection tr t a total Hr) as [Ht _].
    cbv zeta. rewrite Ht. apply Hsame; [exact Hinv|reflexivity..].
Qed.

Lemma reachable_inv (t : ChunkTracker) : reachable rms t -> tracker_inv t.
Proof.
  induction 1 as [|t _ IH|t tr a total _ IH].
  - exact new_tracker_inv.
  - apply reset_inv, IH.
  - apply (chunk_step tr t a total IH).
Qed.

End Properties.

(** ** The properties of the segmentation controller *)

Section Claims.

Variable rms : list Q -> Q.

(** Whatever was handed to the capability during a request is the
    uncommitted slice, and the request got past the noise check. *)
Lemma transcribed_span (tr : Transcriber) (t : ChunkTracker) (a : list Q)
      (total : Z) (u : list Q) :
  In u (transcribed (transcribe_buffer_chunked rms tr t a total)) ->
  reaches_detection t a /\
  is_low_volume_noise rms (detected rms t a) (uncommitted_of t a) = false /\
  u = uncommitted_of t a.
Proof.
  intros Hin.
  destruct (reaches_detection_dec t a) as [Hr|Hr].
  - rewrite (chunk_after_detection rms tr t a total Hr) in Hin.
    cbv zeta in Hin.
    destruct (is_low_volume_noise rms (detected rms t a) (uncommitted_of t a));
      [destruct Hin|].
    split; [exact Hr|]. split; [reflexivity|].
    destruct (tr (uncommitted_of t a)) as [e|text].
    + destruct Hin as [H|[]]. now symmetry.
    + destruct (should_commit (detected rms t a) total (pause_flag rms t a)
                && truthy (strip text));
        destruct Hin as [H|[]]; now symmetry.
  - destruct (chunk_before_detection rms tr t a total Hr) as [_ Hn].
    rewrite Hn in Hin. destruct Hin.
Qed.

Lemma run_adjacent (qs : list Request) :
  forall (t0 : ChunkTracker), tracker_inv t0 ->
  forall (i : nat) (t t' : ChunkTracker),
    nth_error (t0 :: run rms t0 qs) i = Some t ->
    nth_error (t0 :: run rms t0 qs) (S i) = Some t' ->
    committed_samples t <= committed_samples t' /\
    exists ext, committed_text t' = (committed_text t ++ ext)%string.
Proof.
  induction qs as [|q qs IH]; intros t0 Hinv i t t' Hi Hi'.
  - destruct i; discriminate.
  - destruct (chunk_step rms (req_transcribe q) t0 (req_audio q)
                         (req_total_samples q) Hinv) as (Hinv' & Hs & Ht).
    destruct i as [|i].
    + simpl in Hi, Hi'. injection Hi as <-. injection Hi' as <-.
      split; assumption.
    + exact (IH _ Hinv' i t t' Hi Hi').
Qed.

(** C1.  Along every sequence of calls of one session whose
    [total_samples] never decrease, [committed_samples] does not decrease
    from one call to the next, and the committed text after a call is the
    committed text before it followed by an extension. *)
Theorem committed_boundary_monotone (t0 : ChunkTracker) (qs : list Request) :
  reachable rms t0 ->
  nondecreasing (map req_total_samples qs) ->
  forall (i : nat) (t t' : ChunkTracker),
    nth_error (t0 :: run rms t0 qs) i = Some t ->
    nth_error (t0 :: run rms t0 qs) (S i) = Some t' ->
    committed_samples t <= committed_samples t' /\
    exists ext, committed_text t' = (committed_text t ++ ext)%string.
Proof.
  intros Hr _. apply run_adjacent. apply reachable_inv with (rms := rms).
  exact Hr.
Qed.


(** C3, as the code has it.  When the capability raises on the span it
    was handed, the call returns an error result carrying the exception
    text; [committed_text], [committed_samples], [last_commit_sample] and
    [pending_audio] are as before the call, so the next request slices
    the same uncommitted span; the silence run and the calibration are as
    pause detection, which ran before the capability, left them. *)
Theorem transcription_failure_keeps_boundary (tr : Transcriber)
        (t : ChunkTracker) (a : list Q) (total : Z) (u : list Q) (e : string) :
  let o := transcribe_buffer_chunked rms tr t a total in
  In u (transcribed o) ->
  tr u = Raised e ->
  response o = ErrorResult e /\
  tracker o = detected rms t a /\
  committed_text (tracker o) = committed_text t /\
  committed_samples (tracker o) = committed_samples t /\
  last_commit_sample (tracker o) = last_commit_sample t /\
  pending_audio (tracker o) = pending_audio t /\
  (forall a' : list Q, uncommitted_of (tracker o) a' = uncommitted_of t a').
Proof.
  intros o Hin He.
  destruct (transcribed_span tr t a total u Hin) as (Hr & Hn & ->).
  unfold o. rewrite (chunk_after_detection rms tr t a total Hr). cbv zeta.
  rewrite Hn, He. cbn [response tracker].
  destruct (detect_silence_boundary rms t (tail_of (uncommitted_of t a)))
    as (Ht & Hs & Hl & Hp).
  fold (detected rms t a) in Ht, Hs, Hl, Hp.
  repeat split; try assumption.
  intros a'. unfold uncommitted_of. rewrite Hs. reflexivity.
Qed.

(** C4.  When the commit policy says to commit but the text returned for
    the uncommitted span is blank after trimming, nothing is committed:
    [committed_samples], [last_commit_sample] and [committed_text] keep
    their values and the response has [is_final = false]. *)
Theorem blank_text_no_commit (tr : Transcriber) (t : ChunkTracker)
        (a : list Q) (total : Z) (u : list Q) (text : string) :
  let o := transcribe_buffer_chunked rms tr t a total in
  In u (transcribed o) ->
  tr u = Returned text ->
  strip text = ""%string ->
  should_commit (detected rms t a) total (pause_flag rms t a) = true ->
  committed_samples (tracker o) = committed_samples t /\
  last_commit_sample (tracker o) = last_commit_sample t /\
  committed_text (tracker o) = committed_text t /\
  is_final_of (response o) = false /\
  response o = SuccessResult (committed_text t) text false
                             (committed_samples t) None None.
Proof.
  intros o Hin He Hb Hc.
  destruct (transcribed_span tr t a total u Hin) as (Hr & Hn & ->).
  unfold o. rewrite (chunk_after_detection rms tr t a total Hr). cbv zeta.
  rewrite Hn, He, Hc, Hb. cbn [truthy andb response tracker is_final_of].
  destruct (detect_silence_boundary rms t (tail_of (uncommitted_of t a)))
    as (Ht & Hs & Hl & _).
  fold (detected rms t a) in Ht, Hs, Hl.
  rewrite Ht, Hs, Hl. repeat split; reflexivity.
Qed.

End Claims.

(** C5.  With [elapsed = current_sample - last_commit_sample], the policy
    of the code is the reference policy: forcing is true iff [elapsed >=
    128,000]; committing is false when [elapsed < 12,800] and otherwise
    true iff there is a pause or forcing holds. *)
Theorem commit_policy_matches_reference (t : ChunkTracker)
        (current_sample : Z) (has_pause : bool) :
  let elapsed := current_sample - last_commit_sample t in
  should_force_commit t current_sample = spec_should_force_commit elapsed /\
  should_commit t current_sample has_pause
  = spec_should_commit elapsed has_pause /\
  (should_force_commit t current_sample = true <-> 128000 <= elapsed) /\
  (elapsed < 12800 -> should_commit t current_sample has_pause = false) /\
  (12800 <= elapsed ->
   (should_commit t current_sample has_pause = true <->
    has_pause = true \/ should_force_commit t current_sample = true)).
Proof.
  intros elapsed.
  unfold should_commit, should_force_commit, spec_should_commit,
    spec_should_force_commit, FORCE_COMMIT_SAMPLES, FORCE_COMMIT_SECONDS,
    SAMPLE_RATE, MIN_CHUNK_SAMPLES.
  fold elapsed. change (8 * 16000) with 128000.
  split; [reflexivity|]. split; [reflexivity|].
  split; [apply Z.leb_le|].
  split.
  - intros H. destruct (Z.ltb_spec elapsed 12800); [reflexivity|lia].
  - intros H. destruct (Z.ltb_spec elapsed 12800); [lia|].
    apply orb_true_iff.
Qed.

Section Calibration.

Variable rms : list Q -> Q.

Lemma is_low_volume_noise_spec (t : ChunkTracker) (u : list Q) :
  is_low_volume_noise rms t u = true <->
  (15 # 1000 < rms u)%Q /\
  (rms u < 25 # 1000 \/ rms u < average_speech_rms t * (4 # 10))%Q.
Proof.
  unfold is_low_volume_noise.
  change SILENCE_THRESHOLD with (15 # 1000).
  change MINIMUM_SPEECH_RMS with (25 # 1000).
  destruct (Qleb (rms u) (15 # 1000)) eqn:E1.
  - apply Qleb_le in E1. split; [discriminate|].
    intros [H _]. exfalso. exact (Qlt_not_le _ _ H E1).
  - apply Qleb_gt in E1.
    destruct (Qltb (rms u) (25 # 1000)) eqn:E2.
    + apply Qltb_lt in E2. tauto.
    + apply Qltb_nlt in E2.
      destruct (Qltb (rms u) (average_speech_rms t * (4 # 10))) eqn:E3.
      * apply Qltb_lt in E3. tauto.
      * apply Qltb_nlt in E3. split; [discriminate|]. tauto.
Qed.

(** C6, as the code has it.  [reset] clears the committed text, both
    boundary fields and the silence run, and keeps the speech-energy
    history and baseline: the reset tracker is the brand-new tracker with
    the retained calibration put in, every later call behaves as on that
    tracker, and it is the brand-new tracker itself whenever no clear
    speech has been recorded yet. *)
Theorem reset_keeps_calibration (t : ChunkTracker) :
  reachable rms t ->
  reset t = set_calibration new_tracker (speech_rms_history t)
                            (average_speech_rms t) /\
  (forall (tr : Transcriber) (a : list Q) (total : Z),
      transcribe_buffer_chunked rms tr (reset t) a total
      = transcribe_buffer_chunked rms tr
          (set_calibration new_tracker (speech_rms_history t)
                           (average_speech_rms t)) a total) /\
  (speech_rms_history t = [] -> reset t = new_tracker).
Proof.
  intros Hr. apply reachable_inv in Hr.
  destruct Hr as (_ & _ & Hh & _ & Ha).
  assert (E : reset t = set_calibration new_tracker (speech_rms_history t)
                                        (average_speech_rms t)).
  { unfold reset, set_calibration. simpl.
    destruct (Z.ltb_spec 100 (len (speech_rms_history t))); [lia|reflexivity]. }
  split; [exact E|]. split.
  - intros tr a total. rewrite E. reflexivity.
  - intros He. rewrite E, He, (Ha He). reflexivity.
Qed.

(** C7.  A call that reaches pause detection examines the last
    [min(16000, len)] samples of the uncommitted audio.  If their RMS is
    below 0.015 the whole window length is added to the silence run;
    otherwise the run is set to 0 and, when the RMS exceeds 0.03, it is
    appended to the history, the oldest entry is dropped when the history
    then holds more than 50, and the baseline becomes the mean of the
    history.  The pause flag holds exactly when the run is then at least
    5,600.  The call leaves this tracker behind, except that a commit
    clears the run. *)
Theorem pause_detection_step (tr : Transcriber) (t : ChunkTracker)
        (a : list Q) (total : Z) :
  reaches_detection t a ->
  let u := uncommitted_of t a in
  let w := tail_of u in
  let r := rms w in
  let t1 := detected rms t a in
  let o := transcribe_buffer_chunked rms tr t a total in
  w = last_n (Z.to_nat (Z.min 16000 (len u))) u /\
  len w = Z.min 16000 (len u) /\
  ((r < 15 # 1000)%Q ->
   silence_sample_count t1 = silence_sample_count t + len w /\
   speech_rms_history t1 = speech_rms_history t /\
   average_speech_rms t1 = average_speech_rms t) /\
  (~ (r < 15 # 1000)%Q ->
   silence_sample_count t1 = 0 /\
   ((3 # 100 < r)%Q ->
    speech_rms_history t1
    = (let h := (speech_rms_history t ++ [r])%list in
       if 50 <? len h then tl h else h) /\
    average_speech_rms t1
    = (py_sum (speech_rms_history t1)
       / inject_Z (len (speech_rms_history t1)))%Q) /\
   (~ (3 # 100 < r)%Q ->
    speech_rms_history t1 = speech_rms_history t /\
    average_speech_rms t1 = average_speech_rms t)) /\
  (pause_flag rms t a = true <-> 5600 <= silence_sample_count t1) /\
  speech_rms_history (tracker o) = speech_rms_history t1 /\
  average_speech_rms (tracker o) = average_speech_rms t1 /\
  (is_final_of (response o) = false -> tracker o = t1) /\
  (is_final_of (response o) = true -> silence_sample_count (tracker o) = 0).
Proof.
  intros Hr u w r t1 o.
  assert (Hu : 0 < len u) by (destruct Hr as [_ Hr]; unfold u; lia).
  split; [apply tail_of_last_n; exact Hu|].
  split; [apply len_tail_of; exact Hu|].
  assert (E2 : (SILENCE_THRESHOLD * 2 == 3 # 100)%Q) by reflexivity.
  split; [|split; [|split; [|split; [|split; [|split]]]]].
  - intros Hs. apply Qltb_lt in Hs.
    unfold t1, detected, detect_silence. fold u. fold w. fold r.
    change SILENCE_THRESHOLD with (15 # 1000). rewrite Hs.
    simpl. repeat split; reflexivity.
  - intros Hs. apply Qltb_nlt in Hs.
    unfold t1, detected, detect_silence. fold u. fold w. fold r.
    change SILENCE_THRESHOLD with (15 # 1000). rewrite Hs.
    change (15 # 1000) with SILENCE_THRESHOLD.
    split; [|split].
    + destruct (Qltb (SILENCE_THRESHOLD * 2) r); reflexivity.
    + intros Hc. rewrite <- E2 in Hc. apply Qltb_lt in Hc. rewrite Hc.
      split; reflexivity.
    + intros Hc. rewrite <- E2 in Hc. apply Qltb_nlt in Hc. rewrite Hc.
      split; reflexivity.
  - unfold pause_flag, t1, detected. rewrite detect_silence_flag.
    fold u. fold w. apply Z.leb_le.
  - unfold o. rewrite (chunk_after_detection rms tr t a total Hr). cbv zeta.
    fold u. fold t1.
    destruct (is_low_volume_noise rms t1 u); [reflexivity|].
    destruct (tr u); [reflexivity|].
    destruct (should_commit t1 total (pause_flag rms t a) && truthy (strip text));
      reflexivity.
  - unfold o. rewrite (chunk_after_detection rms tr t a total Hr). cbv zeta.
    fold u. fold t1.
    destruct (is_low_volume_noise rms t1 u); [reflexivity|].
    destruct (tr u); [reflexivity|].
    destruct (should_commit t1 total (pause_flag rms t a) && truthy (strip text));
      reflexivity.
  - unfold o. rewrite (chunk_after_detection rms tr t a total Hr). cbv zeta.
    fold u. fold t1.
    destruct (is_low_volume_noise rms t1 u); [reflexivity|].
    destruct (tr u); [reflexivity|].
    destruct (should_commit t1 total (pause_flag rms t a) && truthy (strip text));
      [discriminate|reflexivity].
  - unfold o. rewrite (chunk_after_detection rms tr t a total Hr). cbv zeta.
    fold u. fold t1.
    destruct (is_low_volume_noise rms t1 u); [discriminate|].
    destruct (tr u); [discriminate|].
    destruct (should_commit t1 total (pause_flag rms t a) && truthy (strip text));
      [reflexivity|discriminate].
Qed.

(** C8, as the code has it.  When the uncommitted span of a call that
    reaches pause detection has an RMS above 0.015 that is below 0.025 or
    below 0.4 times the baseline as pause detection left it, nothing is
    transcribed and the response carries the unchanged committed text and
    boundary, an empty partial text, [is_final = false] and
    [skipped_low_volume = true].  The committed text and both boundary
    fields are untouched; the silence run and the calibration are the
    ones pause detection computed on the tail window. *)
Theorem noise_skip_keeps_committed_state (tr : Transcriber)
        (t : ChunkTracker) (a : list Q) (total : Z) :
  reaches_detection t a ->
  let u := uncommitted_of t a in
  let t1 := detected rms t a in
  (15 # 1000 < rms u)%Q ->
  (rms u < 25 # 1000 \/ rms u < average_speech_rms t1 * (4 # 10))%Q ->
  transcribe_buffer_chunked rms tr t a total
  = mkOutcome (SuccessResult (committed_text t) "" false
                             (committed_samples t) None (Some true))
              t1 [] /\
  committed_text t1 = committed_text t /\
  committed_samples t1 = committed_samples t /\
  last_commit_sample t1 = last_commit_sample t.
Proof.
  intros Hr u t1 H1 H2.
  assert (Hn : is_low_volume_noise rms t1 u = true)
    by (apply is_low_volume_noise_spec; split; assumption).
  assert (Hb : committed_text t1 = committed_text t /\
               committed_samples t1 = committed_samples t /\
               last_commit_sample t1 = last_commit_sample t)
    by (destruct (detect_silence_boundary rms t (tail_of u)) as (? & ? & ? & _);
        repeat split; assumption).
  destruct Hb as (Ht & Hs & Hl).
  rewrite (chunk_after_detection rms tr t a total Hr). cbv zeta.
  change (detected rms t a) with t1. change (uncommitted_of t a) with u.
  rewrite Hn, Ht, Hs.
  repeat split; assumption.
Qed.

(** C9, as the code has it.  On every tracker, [commit] with a text that
    is not blank appends the trimmed text to the committed text, with one
    space in between exactly when the committed text is non-empty and does
    not end in a space character (other trailing whitespace does not
    count), sets both boundary fields to the sample position and clears
    the silence run. *)
Theorem commit_appends_trimmed_text (t : ChunkTracker) (text : string)
        (sample_position : Z) :
  strip text <> ""%string ->
  let t' := commit t text sample_position in
  (committed_text t = ""%string -> committed_text t' = strip text) /\
  (forall p : string,
      committed_text t = (p ++ " ")%string ->
      committed_text t' = (committed_text t ++ strip text)%string) /\
  (committed_text t <> ""%string ->
   (forall p : string, committed_text t <> (p ++ " ")%string) ->
   committed_text t' = (committed_text t ++ " " ++ strip text)%string) /\
  committed_samples t' = sample_position /\
  last_commit_sample t' = sample_position /\
  silence_sample_count t' = 0.
Proof.
  intros Hs t'. apply truthy_nonempty in Hs.
  assert (Ht : committed_text t'
               = (committed_text t
                  ++ (if truthy (committed_text t)
                         && negb (endswith_space (committed_text t))
                      then " " else "")
                  ++ strip text)%string).
  { unfold t'. rewrite commit_text. unfold commit_extension.
    rewrite Hs. reflexivity. }
  split; [|split; [|split; [|repeat split; reflexivity]]].
  - intros He. rewrite Ht, He. reflexivity.
  - intros p Hp. rewrite Ht.
    assert (E : endswith_space (committed_text t) = true)
      by (apply endswith_space_iff; exists p; exact Hp).
    rewrite E, andb_false_r. reflexivity.
  - intros Hne Hp. rewrite Ht.
    apply truthy_nonempty in Hne. rewrite Hne.
    destruct (endswith_space (committed_text t)) eqn:E; [|reflexivity].
    apply endswith_space_iff in E. destruct E as [p E].
    exfalso. exact (Hp p E).
Qed.

(** C10.  In every tracker state the server can reach the speech-energy
    history holds at most 50 entries, so the guard of the trim in [reset]
    (more than 100 entries) is false and [reset] leaves the history as it
    is. *)
Theorem history_never_exceeds_capacity (t : ChunkTracker) :
  reachable rms t ->
  len (speech_rms_history t) <= 50 /\
  (100 <? len (speech_rms_history t)) = false /\
  speech_rms_history (reset t) = speech_rms_history t.
Proof.
  intros Hr. apply reachable_inv in Hr.
  destruct Hr as (_ & _ & Hh & _).
  split; [exact Hh|].
  assert (Hg : (100 <? len (speech_rms_history t)) = false)
    by (apply Z.ltb_ge; lia).
  split; [exact Hg|].
  unfold reset. cbn [speech_rms_history]. rewrite Hg. reflexivity.
Qed.

End Calibration.

(** ** The properties on concrete sessions *)

Lemma committed_boundary_monotone_witness :
  reachable rms_q new_tracker /\
  nondecreasing (map req_total_samples [hello_request; world_request]) /\
  committed_samples new_tracker <= committed_samples after_hello /\
  exists ext,
    committed_text after_hello = (committed_text new_tracker ++ ext)%string.
Proof.
  assert (H : nondecreasing (map req_total_samples
                                 [hello_request; world_request]))
    by (vm_compute; split; [discriminate|exact I]).
  assert (H0 : nth_error (new_tracker
                          :: run rms_q new_tracker
                                 [hello_request; world_request]) 0
               = Some new_tracker) by (vm_compute; reflexivity).
  assert (H1 : nth_error (new_tracker
                          :: run rms_q new_tracker
                                 [hello_request; world_request]) 1
               = Some after_hello) by (vm_compute; reflexivity).
  split; [apply reach_new|].
  split; [exact H|].
  exact (committed_boundary_monotone rms_q new_tracker
           [hello_request; world_request] (reach_new rms_q) H
           0%nat new_tracker after_hello H0 H1).
Defined.

(** C2, at the failing input.  Right after the commit of "hello" at sample
    16,000 the same second of audio is sent again with [total_samples =
    16000], so [total_samples - committed_samples] is 0.  The boundary is
    not below the length of the audio, the guard of the slice takes the
    whole buffer as uncommitted, and the 16,000 committed samples are
    handed to the capability again, its text coming back as partial text:
    the code transcribes committed audio, against its own comment that
    only audio after [committed_samples] is transcribed. *)
Lemma resent_buffer_is_transcribed :
  reachable rms_q after_hello /\
  4000 <= len quiet_second /\
  16000 - committed_samples after_hello < 4000 /\
  transcribed (transcribe_buffer_chunked rms_q (says "hello") after_hello
                                         quiet_second 16000)
  = [quiet_second] /\
  response (transcribe_buffer_chunked rms_q (says "hello") after_hello
                                      quiet_second 16000)
  = SuccessResult "hello" "hello" false 16000 None None.
Proof.
  split; [apply reach_chunk, reach_new|].
  split; [vm_compute; discriminate|].
  split; [vm_compute; reflexivity|].
  split; vm_compute; reflexivity.
Qed.


(** The claim C3 fails as worded: on a fresh tracker a silent second is
    examined by pause detection before the capability raises, and the call
    leaves [silence_sample_count] at 16,000 instead of 0. *)
Lemma failure_leaves_silence_run_updated :
  response (transcribe_buffer_chunked rms_q (fails "model crashed") new_tracker
                                      quiet_second 16000)
  = ErrorResult "model crashed" /\
  transcribed (transcribe_buffer_chunked rms_q (fails "model crashed")
                                         new_tracker quiet_second 16000)
  = [quiet_second] /\
  silence_sample_count new_tracker = 0 /\
  silence_sample_count
    (tracker (transcribe_buffer_chunked rms_q (fails "model crashed")
                                        new_tracker quiet_second 16000))
  = 16000.
Proof. repeat split; vm_compute; reflexivity. Qed.

Lemma transcription_failure_keeps_boundary_witness :
  let o := transcribe_buffer_chunked rms_q (fails "model crashed") new_tracker
                                     quiet_second 16000 in
  In quiet_second (transcribed o) /\
  fails "model crashed" quiet_second = Raised "model crashed" /\
  response o = ErrorResult "model crashed" /\
  tracker o = detected rms_q new_tracker quiet_second /\
  committed_text (tracker o) = committed_text new_tracker /\
  committed_samples (tracker o) = committed_samples new_tracker /\
  last_commit_sample (tracker o) = last_commit_sample new_tracker /\
  pending_audio (tracker o) = pending_audio new_tracker /\
  (forall a' : list Q,
      uncommitted_of (tracker o) a' = uncommitted_of new_tracker a').
Proof.
  intros o.
  assert (H1 : In quiet_second (transcribed o))
    by (vm_compute; left; reflexivity).
  assert (H2 : fails "model crashed" quiet_second = Raised "model crashed")
    by reflexivity.
  split; [exact H1|]. split; [exact H2|].
  exact (transcription_failure_keeps_boundary rms_q (fails "model crashed")
           new_tracker quiet_second 16000 quiet_second "model crashed" H1 H2).
Defined.

Lemma blank_text_no_commit_witness :
  let o := transcribe_buffer_chunked rms_q (says "  ") new_tracker
                                     quiet_second 16000 in
  In quiet_second (transcribed o) /\
  strip "  " = ""%string /\
  should_commit (detected rms_q new_tracker quiet_second) 16000
                (pause_flag rms_q new_tracker quiet_second) = true /\
  committed_samples (tracker o) = committed_samples new_tracker /\
  last_commit_sample (tracker o) = last_commit_sample new_tracker /\
  committed_text (tracker o) = committed_text new_tracker /\
  is_final_of (response o) = false /\
  response o = SuccessResult (committed_text new_tracker) "  " false
                             (committed_samples new_tracker) None None.
Proof.
  intros o.
  assert (H1 : In quiet_second (transcribed o))
    by (vm_compute; left; reflexivity).
  assert (H2 : strip "  " = ""%string) by reflexivity.
  assert (H3 : should_commit (detected rms_q new_tracker quiet_second) 16000
                             (pause_flag rms_q new_tracker quiet_second) = true)
    by (vm_compute; reflexivity).
  split; [exact H1|]. split; [exact H2|]. split; [exact H3|].
  exact (blank_text_no_commit rms_q (says "  ") new_tracker quiet_second 16000
           quiet_second "  " H1 eq_refl H2 H3).
Defined.

(** The claim C6 fails as worded: after a loud second and a reset, a soft
    second is skipped as low-volume noise, while a brand-new tracker
    transcribes the same second. *)
Lemma reset_session_differs_from_new :
  reachable rms_q calibrated_then_reset /\
  committed_text calibrated_then_reset = ""%string /\
  committed_samples calibrated_then_reset = 0 /\
  response (transcribe_buffer_chunked rms_q (says "soft") calibrated_then_reset
                                      soft_second 16000)
  = SuccessResult "" "" false 0 None (Some true) /\
  response (transcribe_buffer_chunked rms_q (says "soft") new_tracker
                                      soft_second 16000)
  = SuccessResult "" "soft" false 0 None None.
Proof.
  split; [apply reach_reset, reach_chunk, reach_new|].
  repeat split; vm_compute; reflexivity.
Qed.

Lemma reset_keeps_calibration_witness :
  reachable rms_q after_loud /\
  reset after_loud
  = set_calibration new_tracker (speech_rms_history after_loud)
                    (average_speech_rms after_loud) /\
  (forall (tr : Transcriber) (a : list Q) (total : Z),
      transcribe_buffer_chunked rms_q tr (reset after_loud) a total
      = transcribe_buffer_chunked rms_q tr
          (set_calibration new_tracker (speech_rms_history after_loud)
                           (average_speech_rms after_loud)) a total) /\
  (speech_rms_history after_loud = [] -> reset after_loud = new_tracker).
Proof.
  assert (H : reachable rms_q after_loud) by apply reach_chunk, reach_new.
  split; [exact H|].
  exact (reset_keeps_calibration rms_q after_loud H).
Defined.

Lemma pause_detection_step_witness :
  reaches_detection new_tracker quiet_second /\
  pause_flag rms_q new_tracker quiet_second = true /\
  silence_sample_count (detected rms_q new_tracker quiet_second) = 16000.
Proof.
  assert (H : reaches_detection new_tracker quiet_second)
    by (split; vm_compute; discriminate).
  split; [exact H|].
  destruct (pause_detection_step rms_q (says "hello") new_tracker quiet_second
              16000 H) as (_ & Hw & Hs & _ & Hp & _).
  assert (Hq : (rms_q (tail_of (uncommitted_of new_tracker quiet_second))
                < 15 # 1000)%Q) by (vm_compute; reflexivity).
  destruct (Hs Hq) as (Hc & _).
  assert (Hl : len (uncommitted_of new_tracker quiet_second) = 16000)
    by (vm_compute; reflexivity).
  rewrite Hw, Hl in Hc. change (silence_sample_count new_tracker) with 0 in Hc.
  change (0 + Z.min 16000 16000) with 16000 in Hc.
  split; [|exact Hc].
  apply Hp. rewrite Hc. discriminate.
Defined.

(** The claim C8 fails as worded: on a fresh tracker a span whose RMS is
    0.02 is skipped as noise, and the call still leaves
    [silence_sample_count] at 16,000 instead of 0, because the last second
    of the span is silent. *)
Lemma noise_skip_updates_silence_run :
  reaches_detection new_tracker fading_noise /\
  rms_q (uncommitted_of new_tracker fading_noise) = 1 # 50 /\
  is_low_volume_noise rms_q new_tracker
                      (uncommitted_of new_tracker fading_noise) = true /\
  response (transcribe_buffer_chunked rms_q (says "noise") new_tracker
                                      fading_noise 20000)
  = SuccessResult "" "" false 0 None (Some true) /\
  silence_sample_count new_tracker = 0 /\
  silence_sample_count
    (tracker (transcribe_buffer_chunked rms_q (says "noise") new_tracker
                                        fading_noise 20000))
  = 16000.
Proof.
  split; [split; vm_compute; discriminate|].
  repeat split; vm_compute; reflexivity.
Qed.

Lemma noise_skip_keeps_committed_state_witness :
  reaches_detection new_tracker fading_noise /\
  (15 # 1000 < rms_q (uncommitted_of new_tracker fading_noise))%Q /\
  (rms_q (uncommitted_of new_tracker fading_noise) < 25 # 1000)%Q /\
  transcribe_buffer_chunked rms_q (says "noise") new_tracker fading_noise 20000
  = mkOutcome (SuccessResult (committed_text new_tracker) "" false
                             (committed_samples new_tracker) None (Some true))
              (detected rms_q new_tracker fading_noise) [].
Proof.
  assert (H : reaches_detection new_tracker fading_noise)
    by (split; vm_compute; discriminate).
  assert (H1 : (15 # 1000 < rms_q (uncommitted_of new_tracker fading_noise))%Q)
    by (vm_compute; reflexivity).
  assert (H2 : (rms_q (uncommitted_of new_tracker fading_noise) < 25 # 1000)%Q)
    by (vm_compute; reflexivity).
  split; [exact H|]. split; [exact H1|]. split; [exact H2|].
  exact (proj1 (noise_skip_keeps_committed_state rms_q (says "noise")
                  new_tracker fading_noise 20000 H H1 (or_introl H2))).
Defined.

(** The claim C9 fails as worded: a committed text that ends in a line
    feed ends in whitespace, and [commit] still puts a space before the
    new text. *)
Lemma commit_inserts_space_after_newline :
  ends_in_whitespace (committed_text newline_tracker) = true /\
  strip "there" <> ""%string /\
  committed_text (commit newline_tracker "there" 100)
  = (committed_text newline_tracker ++ " " ++ strip "there")%string /\
  committed_text (commit newline_tracker "there" 100)
  <> (committed_text newline_tracker ++ strip "there")%string.
Proof.
  split; [reflexivity|].
  split; [vm_compute; discriminate|].
  split; [reflexivity|].
  vm_compute. discriminate.
Qed.

Lemma commit_appends_trimmed_text_witness :
  strip " world " <> ""%string /\
  committed_text after_hello <> ""%string /\
  (forall p : string, committed_text after_hello <> (p ++ " ")%string) /\
  committed_text (commit after_hello " world " 32000)
  = (committed_text after_hello ++ " " ++ strip " world ")%string /\
  committed_samples (commit after_hello " world " 32000) = 32000.
Proof.
  assert (H1 : strip " world " <> ""%string) by (vm_compute; discriminate).
  assert (H2 : committed_text after_hello <> ""%string)
    by (vm_compute; discriminate).
  assert (E : endswith_space (committed_text after_hello) = false)
    by (vm_compute; reflexivity).
  assert (H3 : forall p : string,
             committed_text after_hello <> (p ++ " ")%string).
  { intros p Hp.
    assert (E' : endswith_space (committed_text after_hello) = true)
      by (apply endswith_space_iff; exists p; exact Hp).
    rewrite E in E'. discriminate E'. }
  split; [exact H1|]. split; [exact H2|]. split; [exact H3|].
  destruct (commit_appends_trimmed_text after_hello " world " 32000 H1)
    as (_ & _ & Hsp & Hc & _).
  split; [exact (Hsp H2 H3)|exact Hc].
Defined.

Lemma history_never_exceeds_capacity_witness :
  reachable rms_q after_loud /\
  len (speech_rms_history after_loud) <= 50 /\
  (100 <? len (speech_rms_history after_loud)) = false /\
  speech_rms_history (reset after_loud) = speech_rms_history after_loud.
Proof.
  assert (H : reachable rms_q after_loud) by apply reach_chunk, reach_new.
  split; [exact H|].
  exact (history_never_exceeds_capacity rms_q after_loud H).
Defined.

(** ** Further properties of the request handler *)

Section Handler.

Variable rms : list Q -> Q.

(** The tracker a request leaves behind is the one it found, the one pause
    detection produced, or a commit on top of the latter. *)
Lemma chunk_tracker_cases (tr : Transcriber) (t : ChunkTracker) (a : list Q)
      (total : Z) :
  let o := transcribe_buffer_chunked rms tr t a total in
  (tracker o = t /\ is_final_of (response o) = false) \/
  (reaches_detection t a /\ tracker o = detected rms t a /\
   is_final_of (response o) = false) \/
  (exists text,
      reaches_detection t a /\
      tr (uncommitted_of t a) = Returned text /\
      truthy (strip text) = true /\
      should_commit (detected rms t a) total (pause_flag rms t a) = true /\
      tracker o = commit (detected rms t a) text total /\
      is_final_of (response o) = true).
Proof.
  intros o. unfold o.
  destruct (reaches_detection_dec t a) as [Hr|Hr].
  - rewrite (chunk_after_detection rms tr t a total Hr). cbv zeta.
    destruct (is_low_volume_noise rms (detected rms t a) (uncommitted_of t a));
      [right; left; split; [exact Hr|split; reflexivity]|].
    destruct (tr (uncommitted_of t a)) as [e|text] eqn:Et;
      [right; left; split; [exact Hr|split; reflexivity]|].
    destruct (should_commit (detected rms t a) total (pause_flag rms t a)) eqn:Ec;
      [|right; left; split; [exact Hr|split; reflexivity]].
    destruct (truthy (strip text)) eqn:Es;
      [|right; left; split; [exact Hr|split; reflexivity]].
    right; right. exists text.
    split; [exact Hr|].
    repeat (split; [first [assumption|reflexivity]|]).
    first [assumption|reflexivity].
  - left. unfold transcribe_buffer_chunked.
    destruct (Z.ltb_spec (len a) 4000); [split; reflexivity|].
    destruct (Z.ltb_spec (len (uncommitted_of t a)) 4000); [split; reflexivity|].
    exfalso. apply Hr. split; assumption.
Qed.

(** A property that holds of the new tracker and is kept by [reset], by
    pause detection and by the commits the handler performs holds of every
    reachable tracker. *)
Lemma reachable_induction (P : ChunkTracker -> Prop) :
  P new_tracker ->
  (forall t, tracker_inv t -> P t -> P (reset t)) ->
  (forall t w, tracker_inv t -> P t -> P (fst (detect_silence rms t w))) ->
  (forall t text pos,
      tracker_inv t -> P t -> truthy (strip text) = true ->
      last_commit_sample t + 12800 <= pos -> P (commit t text pos)) ->
  forall t, reachable rms t -> P t.
Proof.
  intros Hnew Hreset Hdet Hcommit t Hr.
  induction Hr as [|t Hr IH|t tr a total Hr IH].
  - exact Hnew.
  - apply Hreset; [apply (reachable_inv rms); exact Hr|exact IH].
  - pose proof (reachable_inv rms t Hr) as Hinv.
    destruct (chunk_tracker_cases tr t a total)
      as [[-> _]|[(_ & -> & _)|(text & _ & _ & Hs & Hc & -> & _)]].
    + exact IH.
    + apply Hdet; assumption.
    + apply Hcommit.
      * apply detect_silence_inv. exact Hinv.
      * apply Hdet; assumption.
      * exact Hs.
      * apply should_commit_elapsed in Hc. unfold MIN_CHUNK_SAMPLES in Hc. lia.
Qed.

(** X1.  From the decoded audio on, and for an integer sample count, a
    request ends in an error result exactly in two cases: the audio holds
    fewer than 4,000 samples, with the error "Audio too short", or the
    request reached the capability (an uncommitted slice of at least 4,000
    samples that is not low-volume noise) and the capability raised, its
    exception text being the error.  The first case touches nothing. *)
Theorem error_results_characterised (tr : Transcriber) (t : ChunkTracker)
        (a : list Q) (total : Z) (e : string) :
  let o := transcribe_buffer_chunked rms tr t a total in
  (response o = ErrorResult e <->
   (len a < 4000 /\ e = "Audio too short"%string) \/
   (reaches_detection t a /\
    is_low_volume_noise rms (detected rms t a) (uncommitted_of t a) = false /\
    tr (uncommitted_of t a) = Raised e)) /\
  (len a < 4000 ->
   response o = ErrorResult "Audio too short" /\
   tracker o = t /\ transcribed o = []) /\
  (4000 <= len a -> response o = ErrorResult e ->
   transcribed o = [uncommitted_of t a]).
Proof.
  intros o.
  assert (Hshort : len a < 4000 ->
                   response o = ErrorResult "Audio too short" /\
                   tracker o = t /\ transcribed o = []).
  { intros Hs. unfold o, transcribe_buffer_chunked.
    destruct (Z.ltb_spec (len a) 4000); [|lia]. repeat split; reflexivity. }
  assert (Hlong : reaches_detection t a ->
                  (response o = ErrorResult e <->
                   is_low_volume_noise rms (detected rms t a)
                                       (uncommitted_of t a) = false /\
                   tr (uncommitted_of t a) = Raised e) /\
                  (response o = ErrorResult e ->
                   transcribed o = [uncommitted_of t a])).
  { intros Hr. unfold o.
    rewrite (chunk_after_detection rms tr t a total Hr). cbv zeta.
    destruct (is_low_volume_noise rms (detected rms t a) (uncommitted_of t a)).
    { split; [split; [discriminate|intros [Hx _]; discriminate]|discriminate]. }
    destruct (tr (uncommitted_of t a)) as [e'|text].
    - cbn [response transcribed]. split; [|reflexivity]. split.
      + intros Herr. injection Herr as ->. split; reflexivity.
      + intros [_ Herr]. injection Herr as ->. reflexivity.
    - destruct (should_commit (detected rms t a) total (pause_flag rms t a)
                && truthy (strip text));
        (split; [split; [discriminate|intros [_ Hx]; discriminate]
                |discriminate]). }
  split; [|split; [exact Hshort|]].
  - destruct (Z.lt_ge_cases (len a) 4000) as [Hs|Hl].
    + destruct (Hshort Hs) as (Hresp & _). rewrite Hresp. split.
      * intros Herr. injection Herr as <-. left. split; [exact Hs|reflexivity].
      * intros [[_ ->]|[[Hl _] _]]; [reflexivity|lia].
    + destruct (reaches_detection_dec t a) as [Hr|Hr].
      * destruct (Hlong Hr) as [Hiff _]. split.
        -- intros Herr. right. split; [exact Hr|]. apply Hiff. exact Herr.
        -- intros [[Hs _]|[_ Hc]]; [lia|]. apply Hiff. exact Hc.
      * split.
        -- intros Herr. exfalso. unfold o, transcribe_buffer_chunked in Herr.
           destruct (Z.ltb_spec (len a) 4000); [lia|].
           destruct (Z.ltb_spec (len (uncommitted_of t a)) 4000);
             [discriminate|].
           apply Hr. split; assumption.
        -- intros [[Hs _]|[Hr' _]]; [lia|]. exfalso. exact (Hr Hr').
  - intros Hl Herr.
    destruct (reaches_detection_dec t a) as [Hr|Hr].
    + destruct (Hlong Hr) as [_ Htr]. exact (Htr Herr).
    + exfalso. unfold o, transcribe_buffer_chunked in Herr.
      destruct (Z.ltb_spec (len a) 4000); [lia|].
      destruct (Z.ltb_spec (len (uncommitted_of t a)) 4000); [discriminate|].
      apply Hr. split; assumption.
Qed.

(** X2.  A request invokes the capability at most once, and only on a
    suffix of the audio holding at least 4,000 samples: the samples after
    the committed boundary when the boundary lies inside the audio, and the
    whole audio when the boundary is at or past its end. *)
Theorem transcribed_span_is_suffix (tr : Transcriber) (t : ChunkTracker)
        (a : list Q) (total : Z) (u : list Q) :
  let o := transcribe_buffer_chunked rms tr t a total in
  In u (transcribed o) ->
  transcribed o = [u] /\
  4000 <= len u /\
  exists pre : list Q,
    a = (pre ++ u)%list /\
    (0 <= committed_samples t < len a -> len pre = committed_samples t) /\
    (len a <= committed_samples t -> pre = []).
Proof.
  intros o Hin.
  destruct (transcribed_span rms tr t a total u Hin) as (Hr & Hn & ->).
  split.
  - unfold o. rewrite (chunk_after_detection rms tr t a total Hr). cbv zeta.
    rewrite Hn. destruct (tr (uncommitted_of t a)); [reflexivity|].
    destruct (should_commit (detected rms t a) total (pause_flag rms t a)
              && truthy (strip text)); reflexivity.
  - split; [apply Hr|].
    unfold uncommitted_of.
    destruct (Z.ltb_spec (committed_samples t) (len a)) as [Hc|Hc].
    + unfold slice_from.
      destruct (Z.ltb_spec (committed_samples t) 0) as [Hneg|Hpos].
      * exists (firstn (Z.to_nat (Z.max 0 (len a + committed_samples t))) a).
        split; [symmetry; apply firstn_skipn|]. split; lia.
      * exists (firstn (Z.to_nat (committed_samples t)) a).
        split; [symmetry; apply firstn_skipn|]. split; [|lia].
        intros _. unfold len in *. rewrite length_firstn. lia.
    + exists []. split; [reflexivity|]. split; [lia|reflexivity].
Qed.

(** The outcome of the commit path. *)
Lemma commit_path_outcome (tr : Transcriber) (t : ChunkTracker)
      (a : list Q) (total : Z) (text : string) :
  reaches_detection t a ->
  is_low_volume_noise rms (detected rms t a) (uncommitted_of t a) = false ->
  tr (uncommitted_of t a) = Returned text ->
  truthy (strip text) = true ->
  should_commit t total (pause_flag rms t a) = true ->
  transcribe_buffer_chunked rms tr t a total
  = mkOutcome
      (SuccessResult (committed_text t ++ commit_extension t text) "" true
                     total (Some (if pause_flag rms t a then pause else force))
                     None)
      (commit (detected rms t a) text total) [uncommitted_of t a].
Proof.
  intros Hr Hn He Hs Hc.
  assert (Hc' : should_commit (detected rms t a) total (pause_flag rms t a)
                = true)
    by (unfold detected; rewrite should_commit_after_detect; exact Hc).
  rewrite (chunk_after_detection rms tr t a total Hr). cbv zeta.
  rewrite Hn, He, Hc', Hs. cbn [andb].
  rewrite commit_text.
  assert (Ht : committed_text (detected rms t a) = committed_text t)
    by apply detect_silence_boundary.
  unfold commit_extension. rewrite Ht. reflexivity.
Qed.

(** X3.  When the capability returns a text that is not blank and the
    commit policy fires, the request commits: the response is final, has an
    empty partial text, the caller's sample count as boundary, the reason
    [pause] exactly when a pause was detected, and the committed text
    extended by the trimmed text. *)
Theorem commit_on_policy (tr : Transcriber) (t : ChunkTracker)
        (a : list Q) (total : Z) (u : list Q) (text : string) :
  let o := transcribe_buffer_chunked rms tr t a total in
  In u (transcribed o) ->
  tr u = Returned text ->
  strip text <> ""%string ->
  should_commit t total (pause_flag rms t a) = true ->
  response o
  = SuccessResult (committed_text t ++ commit_extension t text) "" true total
                  (Some (if pause_flag rms t a then pause else force)) None /\
  tracker o = commit (detected rms t a) text total /\
  committed_samples (tracker o) = total /\
  last_commit_sample (tracker o) = total /\
  silence_sample_count (tracker o) = 0.
Proof.
  intros o Hin He Hs Hc.
  destruct (transcribed_span rms tr t a total u Hin) as (Hr & Hn & ->).
  apply truthy_nonempty in Hs.
  unfold o. rewrite (commit_path_outcome tr t a total text Hr Hn He Hs Hc).
  cbn [response tracker]. repeat split; reflexivity.
Qed.

(** X4.  A request made fewer than 12,800 samples after the last commit
    never commits, whatever the audio and the capability do. *)
Theorem no_commit_before_min_chunk (tr : Transcriber) (t : ChunkTracker)
        (a : list Q) (total : Z) :
  total - last_commit_sample t < 12800 ->
  let o := transcribe_buffer_chunked rms tr t a total in
  is_final_of (response o) = false /\
  committed_text (tracker o) = committed_text t /\
  committed_samples (tracker o) = committed_samples t /\
  last_commit_sample (tracker o) = last_commit_sample t.
Proof.
  intros Hlt o.
  destruct (detect_silence_boundary rms t (tail_of (uncommitted_of t a)))
    as (Ht & Hs & Hl & _).
  destruct (chunk_tracker_cases tr t a total)
    as [[E F]|[(_ & E & F)|(text & _ & _ & _ & Hc & _)]].
  - fold o in E, F. rewrite E. repeat split; assumption || reflexivity.
  - fold o in E, F. rewrite E. repeat split; assumption.
  - unfold detected in Hc. rewrite should_commit_after_detect in Hc.
    apply should_commit_elapsed in Hc. unfold MIN_CHUNK_SAMPLES in Hc. lia.
Qed.

End Handler.

Section Progress.

Variable rms : list Q -> Q.

(** X5.  Forward progress: once 128,000 samples have passed since the last
    commit, a request whose capability returns a text that is not blank
    commits, pause or no pause; without a pause the reason is [force]. *)
Theorem force_commit_progress (tr : Transcriber) (t : ChunkTracker)
        (a : list Q) (total : Z) (u : list Q) (text : string) :
  let o := transcribe_buffer_chunked rms tr t a total in
  128000 <= total - last_commit_sample t ->
  In u (transcribed o) ->
  tr u = Returned text ->
  strip text <> ""%string ->
  is_final_of (response o) = true /\
  committed_samples (tracker o) = total /\
  (pause_flag rms t a = false ->
   response o
   = SuccessResult (committed_text t ++ commit_extension t text) "" true total
                   (Some force) None).
Proof.
  intros o Hf Hin He Hs.
  assert (Hc : should_commit t total (pause_flag rms t a) = true).
  { unfold should_commit, should_force_commit, MIN_CHUNK_SAMPLES,
      FORCE_COMMIT_SAMPLES, FORCE_COMMIT_SECONDS, SAMPLE_RATE.
    destruct (Z.ltb_spec (total - last_commit_sample t) 12800); [lia|].
    change (8 * 16000) with 128000.
    destruct (Z.leb_spec 128000 (total - last_commit_sample t)); [|lia].
    apply orb_true_r. }
  destruct (transcribed_span rms tr t a total u Hin) as (Hr & Hn & ->).
  apply truthy_nonempty in Hs.
  unfold o. rewrite (commit_path_outcome rms tr t a total text Hr Hn He Hs Hc).
  cbn [response tracker is_final_of].
  split; [reflexivity|]. split; [reflexivity|].
  intros Hp. rewrite Hp. reflexivity.
Qed.

(** X6.  A success response mirrors the tracker the request leaves behind:
    its committed text and commit sample are the tracker's; a final
    response has an empty partial text and a reason, a response that is not
    final has no reason, and a noise skip is never final. *)
Theorem response_mirrors_tracker (tr : Transcriber) (t : ChunkTracker)
        (a : list Q) (total : Z) :
  let o := transcribe_buffer_chunked rms tr t a total in
  match response o with
  | ErrorResult _ => True
  | SuccessResult ct pt fin cs reason skipped =>
      ct = committed_text (tracker o) /\
      cs = committed_samples (tracker o) /\
      (fin = true -> pt = ""%string /\ reason <> None) /\
      (fin = false -> reason = None) /\
      (skipped <> None -> fin = false /\ pt = ""%string)
  end.
Proof.
  intros o. unfold o, transcribe_buffer_chunked.
  destruct (Z.ltb_spec (len a) 4000); [exact I|].
  destruct (Z.ltb_spec (len (uncommitted_of t a)) 4000).
  { cbn. repeat split; congruence. }
  destruct (detect_silence rms t (tail_of (uncommitted_of t a))) as [t1 p].
  destruct (is_low_volume_noise rms t1 (uncommitted_of t a)).
  { cbn. repeat split; congruence. }
  destruct (tr (uncommitted_of t a)) as [e|text]; [exact I|].
  destruct (should_commit t1 total p && truthy (strip text)).
  - cbn [response tracker]. repeat split; congruence.
  - cbn [response tracker]. repeat split; congruence.
Qed.

(** X7.  From a reachable tracker, a final response means the boundary
    moved to the caller's sample count, at least 12,800 samples beyond the
    previous boundary, the committed text grew by a text that is not
    empty, and the silence run was cleared. *)
Theorem final_response_advances (tr : Transcriber) (t : ChunkTracker)
        (a : list Q) (total : Z) :
  reachable rms t ->
  let o := transcribe_buffer_chunked rms tr t a total in
  is_final_of (response o) = true ->
  committed_samples (tracker o) = total /\
  committed_samples t + 12800 <= committed_samples (tracker o) /\
  silence_sample_count (tracker o) = 0 /\
  exists ext, ext <> ""%string /\
              committed_text (tracker o) = (committed_text t ++ ext)%string.
Proof.
  intros Hr o Hfin. apply (reachable_inv rms) in Hr.
  destruct Hr as (Hb & _).
  destruct (chunk_tracker_cases rms tr t a total)
    as [[_ F]|[(_ & _ & F)|(text & _ & _ & Hs & Hc & E & _)]];
    try (fold o in F; congruence).
  fold o in E. rewrite E.
  unfold detected in Hc. rewrite should_commit_after_detect in Hc.
  apply should_commit_elapsed in Hc. unfold MIN_CHUNK_SAMPLES in Hc.
  split; [reflexivity|]. split; [cbn [commit committed_samples]; lia|].
  split; [reflexivity|].
  exists (commit_extension (detected rms t a) text). split.
  - unfold commit_extension. rewrite Hs.
    apply truthy_nonempty in Hs.
    destruct (truthy (committed_text (detected rms t a))
              && negb (endswith_space (committed_text (detected rms t a))));
      [cbn; discriminate|exact Hs].
  - rewrite commit_text.
    assert (Ht : committed_text (detected rms t a) = committed_text t)
      by apply detect_silence_boundary.
    rewrite Ht at 1. reflexivity.
Qed.

(** X8.  Along a sequence of requests the committed boundary is always a
    sample count the caller reported: the boundary of every tracker passed
    through is the initial one or the [total_samples] of one of the
    requests. *)
Theorem boundary_is_reported_count (qs : list Request) :
  forall (t0 t : ChunkTracker),
    In t (run rms t0 qs) ->
    committed_samples t = committed_samples t0 \/
    In (committed_samples t) (map req_total_samples qs).
Proof.
  induction qs as [|q qs IH]; intros t0 t Hin; [destruct Hin|].
  assert (Hstep : committed_samples (tracker (serve rms t0 q))
                  = committed_samples t0 \/
                  committed_samples (tracker (serve rms t0 q))
                  = req_total_samples q).
  { unfold serve.
    destruct (chunk_tracker_cases rms (req_transcribe q) t0 (req_audio q)
                                  (req_total_samples q))
      as [[E _]|[(_ & E & _)|(text & _ & _ & _ & _ & E & _)]]; rewrite E.
    - left. reflexivity.
    - left. apply detect_silence_boundary.
    - right. reflexivity. }
  cbn [run] in Hin. destruct Hin as [<-|Hin].
  - destruct Hstep as [E|E]; [left; exact E|right; left; symmetry; exact E].
  - destruct (IH _ _ Hin) as [E|E].
    + rewrite E. destruct Hstep as [E'|E'];
        [left; exact E'|right; left; symmetry; exact E'].
    + right. right. exact E.
Qed.

(** The silence run of a reachable tracker is not negative, and nothing
    is ever pending. *)
Lemma reachable_silence_pending (t : ChunkTracker) :
  reachable rms t ->
  0 <= silence_sample_count t /\ pending_audio t = None.
Proof.
  apply (reachable_induction rms
           (fun t => 0 <= silence_sample_count t /\ pending_audio t = None)).
  - split; [cbn; lia|reflexivity].
  - intros t1 _ _. split; [cbn; lia|reflexivity].
  - intros t1 w _ (Hs & Hp). unfold detect_silence. cbn [fst].
    destruct (Qltb (rms w) SILENCE_THRESHOLD).
    + cbn. split; [pose proof (len_nonneg w); lia|exact Hp].
    + destruct (Qltb (SILENCE_THRESHOLD * 2) (rms w)); cbn;
        (split; [lia|exact Hp]).
  - intros t1 text pos _ _ _ _. split; [cbn; lia|reflexivity].
Qed.

(** X9.  In every reachable tracker the two boundary fields are equal and
    not negative, the silence run is not negative, and [pending_audio] is
    never set. *)
Theorem reachable_tracker_shape (t : ChunkTracker) :
  reachable rms t ->
  committed_samples t = last_commit_sample t /\
  0 <= committed_samples t /\
  0 <= silence_sample_count t /\
  pending_audio t = None.
Proof.
  intros Hr.
  destruct (reachable_inv rms t Hr) as (Hb & Hn & _).
  destruct (reachable_silence_pending t Hr) as (Hs & Hp).
  split; [exact Hb|]. split; [exact Hn|]. split; [exact Hs|exact Hp].
Qed.

(** X10.  From a reachable tracker, one silent window of at least 5,600
    samples is enough to declare a pause. *)
Theorem silent_window_declares_pause (t : ChunkTracker) (w : list Q) :
  reachable rms t ->
  (rms w < 15 # 1000)%Q ->
  5600 <= len w ->
  snd (detect_silence rms t w) = true /\
  silence_sample_count (fst (detect_silence rms t w))
  = silence_sample_count t + len w.
Proof.
  intros Hr Hs Hl.
  destruct (reachable_silence_pending t Hr) as (Hn & _).
  apply Qltb_lt in Hs.
  unfold detect_silence. change SILENCE_THRESHOLD with (15 # 1000).
  rewrite Hs. cbn [fst snd set_silence_sample_count silence_sample_count].
  split; [|reflexivity].
  apply Z.leb_le. unfold SILENCE_SAMPLES. lia.
Qed.

(** X11.  During continuous speech nothing is committed before eight
    seconds: when the tail window is not silent and fewer than 128,000
    samples have passed since the last commit, the request does not
    commit. *)
Theorem no_commit_without_pause_or_force (tr : Transcriber)
        (t : ChunkTracker) (a : list Q) (total : Z) :
  ~ (rms (tail_of (uncommitted_of t a)) < 15 # 1000)%Q ->
  total - last_commit_sample t < 128000 ->
  let o := transcribe_buffer_chunked rms tr t a total in
  is_final_of (response o) = false /\
  committed_text (tracker o) = committed_text t /\
  committed_samples (tracker o) = committed_samples t.
Proof.
  intros Hs Hlt o.
  destruct (detect_silence_boundary rms t (tail_of (uncommitted_of t a)))
    as (Ht & Hc & _).
  destruct (chunk_tracker_cases rms tr t a total)
    as [[E F]|[(_ & E & F)|(text & _ & _ & _ & Hp & _)]].
  - fold o in E, F. rewrite E. repeat split; assumption || reflexivity.
  - fold o in E, F. rewrite E. repeat split; assumption.
  - exfalso. apply Qltb_nlt in Hs.
    unfold should_commit in Hp.
    destruct (total - last_commit_sample (detected rms t a) <? MIN_CHUNK_SAMPLES);
      [discriminate|].
    assert (Hl : last_commit_sample (detected rms t a) = last_commit_sample t)
      by apply detect_silence_boundary.
    unfold should_force_commit, FORCE_COMMIT_SAMPLES, FORCE_COMMIT_SECONDS,
      SAMPLE_RATE in Hp. rewrite Hl in Hp.
    change (8 * 16000) with 128000 in Hp.
    destruct (Z.leb_spec 128000 (total - last_commit_sample t)); [lia|].
    rewrite orb_false_r in Hp.
    unfold pause_flag, detect_silence in Hp.
    change SILENCE_THRESHOLD with (15 # 1000) in Hp. rewrite Hs in Hp.
    cbn [snd] in Hp.
    match type of Hp with
    | context [Qltb ?x ?y] => destruct (Qltb x y)
    end; cbn in Hp; discriminate.
Qed.

(** X12.  A request that reaches pause detection hands its uncommitted
    slice to the capability exactly when the slice is not low-volume noise;
    in particular a silent slice (RMS at most 0.015) is transcribed, not
    skipped. *)
Theorem transcribes_unless_noise (tr : Transcriber) (t : ChunkTracker)
        (a : list Q) (total : Z) :
  reaches_detection t a ->
  let o := transcribe_buffer_chunked rms tr t a total in
  let u := uncommitted_of t a in
  (is_low_volume_noise rms (detected rms t a) u = true -> transcribed o = []) /\
  (is_low_volume_noise rms (detected rms t a) u = false -> transcribed o = [u]) /\
  ((rms u <= 15 # 1000)%Q -> transcribed o = [u]).
Proof.
  intros Hr o u.
  assert (Hyes : is_low_volume_noise rms (detected rms t a) u = true ->
                 transcribed o = []).
  { intros Hn. unfold o.
    rewrite (chunk_after_detection rms tr t a total Hr). cbv zeta.
    fold u. rewrite Hn. reflexivity. }
  assert (Hno : is_low_volume_noise rms (detected rms t a) u = false ->
                transcribed o = [u]).
  { intros Hn. unfold o.
    rewrite (chunk_after_detection rms tr t a total Hr). cbv zeta.
    fold u. rewrite Hn. destruct (tr u); [reflexivity|].
    destruct (should_commit (detected rms t a) total (pause_flag rms t a)
              && truthy (strip text)); reflexivity. }
  split; [exact Hyes|]. split; [exact Hno|].
  intros Hq. apply Hno. unfold is_low_volume_noise.
  apply Qleb_le in Hq. change SILENCE_THRESHOLD with (15 # 1000).
  rewrite Hq. reflexivity.
Qed.

End Progress.

(** ** The calibration state and the committed text *)

Lemma in_push_history (h : list Q) (r x : Q) :
  In x (push_history h r) -> In x h \/ x = r.
Proof.
  unfold push_history. intros Hin.
  assert (Hin' : In x (h ++ [r])).
  { destruct (50 <? len (h ++ [r])); [|exact Hin].
    destruct (h ++ [r])%list; [destruct Hin|right; exact Hin]. }
  apply in_app_or in Hin'. destruct Hin' as [H|[H|[]]]; [left|right]; auto.
Qed.

Lemma lstrip_no_leading_space (s : string) :
  starts_with_whitespace (lstrip s) = false.
Proof.
  induction s as [|c r IH]; [reflexivity|].
  simpl. destruct (is_space c) eqn:E; [exact IH|]. simpl. exact E.
Qed.

Lemma rstrip_keeps_head (s : string) :
  starts_with_whitespace s = false ->
  starts_with_whitespace (rstrip s) = false.
Proof.
  destruct s as [|c r]; [reflexivity|].
  simpl. intros E. destruct (rstrip r); [rewrite E|]; simpl; auto.
Qed.

Lemma strip_no_leading_space (s : string) :
  starts_with_whitespace (strip s) = false.
Proof. apply rstrip_keeps_head, lstrip_no_leading_space. Qed.

Lemma lstrip_id (s : string) :
  starts_with_whitespace s = false -> lstrip s = s.
Proof. destruct s as [|c r]; simpl; [reflexivity|]. now intros ->. Qed.

Lemma rstrip_id (s : string) :
  ends_in_whitespace s = false -> rstrip s = s.
Proof.
  induction s as [|c r IH]; [reflexivity|].
  unfold ends_in_whitespace. simpl. destruct r as [|c' r'].
  - simpl. now intros ->.
  - intros E. rewrite IH by exact E. reflexivity.
Qed.

Lemma strip_id (s : string) :
  starts_with_whitespace s = false -> ends_in_whitespace s = false ->
  strip s = s.
Proof.
  intros Hs He. unfold strip. rewrite lstrip_id by exact Hs.
  apply rstrip_id, He.
Qed.

Lemma starts_with_whitespace_app (a b : string) :
  a <> ""%string ->
  starts_with_whitespace (a ++ b) = starts_with_whitespace a.
Proof. destruct a; [congruence|reflexivity]. Qed.

Section Invariants.

Variable rms : list Q -> Q.

(** X13.  In every reachable tracker each entry of the speech-energy
    history exceeds 0.03, and the baseline is the initial 0.08 while the
    history is empty and the mean of the history otherwise. *)
Theorem calibration_invariant (t : ChunkTracker) :
  reachable rms t ->
  (forall x, In x (speech_rms_history t) -> (3 # 100 < x)%Q) /\
  (speech_rms_history t = [] -> average_speech_rms t = 8 # 100) /\
  (speech_rms_history t <> [] ->
   average_speech_rms t
   = (py_sum (speech_rms_history t)
      / inject_Z (len (speech_rms_history t)))%Q).
Proof.
  apply (reachable_induction rms
           (fun t =>
              (forall x, In x (speech_rms_history t) -> (3 # 100 < x)%Q) /\
              (speech_rms_history t = [] -> average_speech_rms t = 8 # 100) /\
              (speech_rms_history t <> [] ->
               average_speech_rms t
               = (py_sum (speech_rms_history t)
                  / inject_Z (len (speech_rms_history t)))%Q))).
  - split; [intros x []|]. split; [reflexivity|]. intros H. now destruct H.
  - intros t0 (_ & _ & Hh & _) IH. unfold reset. cbn.
    destruct (Z.ltb_spec 100 (len (speech_rms_history t0))); [lia|exact IH].
  - intros t0 w _ (Hin & He & Hm). unfold detect_silence. cbn [fst].
    destruct (Qltb (rms w) SILENCE_THRESHOLD); [cbn; auto|].
    destruct (Qltb (SILENCE_THRESHOLD * 2) (rms w)) eqn:Ec; [|cbn; auto].
    cbn. apply Qltb_lt in Ec.
    assert (E2 : (SILENCE_THRESHOLD * 2 == 3 # 100)%Q) by reflexivity.
    rewrite E2 in Ec.
    split; [|split].
    + intros x Hx. apply in_push_history in Hx.
      destruct Hx as [Hx| ->]; [apply Hin, Hx|exact Ec].
    + intros H. exfalso. exact (push_history_nonempty _ _ H).
    + intros _. reflexivity.
  - intros t0 text pos _ IH _ _. exact IH.
Qed.

(** X14.  In every reachable tracker the committed text is trimmed: it
    neither begins nor ends with whitespace, so stripping it changes
    nothing. *)
Theorem committed_text_is_trimmed (t : ChunkTracker) :
  reachable rms t ->
  starts_with_whitespace (committed_text t) = false /\
  ends_in_whitespace (committed_text t) = false /\
  strip (committed_text t) = committed_text t.
Proof.
  intros Hr.
  assert (Hs : starts_with_whitespace (committed_text t) = false).
  { revert t Hr.
    apply (reachable_induction rms
             (fun t => starts_with_whitespace (committed_text t) = false)).
    - reflexivity.
    - reflexivity.
    - intros t w _ IH.
      assert (E : committed_text (fst (detect_silence rms t w))
                  = committed_text t) by apply detect_silence_boundary.
      rewrite E. exact IH.
    - intros t text pos _ IH Ht _. rewrite commit_text.
      unfold commit_extension. rewrite Ht.
      destruct (committed_text t) as [|c r] eqn:E.
      + cbn. apply strip_no_leading_space.
      + rewrite starts_with_whitespace_app by discriminate. exact IH. }
  destruct (reachable_inv rms t Hr) as (_ & _ & _ & He & _).
  split; [exact Hs|]. split; [exact He|]. apply strip_id; assumption.
Qed.

End Invariants.

(** X15.  [reset] on any tracker, reachable or not: afterwards the history
    holds at most 100 entries; a history of more than 100 entries is cut
    to its last 50, a shorter one is kept; resetting twice is resetting
    once. *)
Theorem reset_trims_and_is_idempotent (t : ChunkTracker) :
  len (speech_rms_history (reset t)) <= 100 /\
  (100 < len (speech_rms_history t) ->
   len (speech_rms_history (reset t)) = 50 /\
   exists dropped,
     speech_rms_history t = (dropped ++ speech_rms_history (reset t))%list) /\
  (len (speech_rms_history t) <= 100 ->
   speech_rms_history (reset t) = speech_rms_history t) /\
  reset (reset t) = reset t.
Proof.
  assert (Hcut : 100 < len (speech_rms_history t) ->
                 len (slice_from (-50) (speech_rms_history t)) = 50).
  { intros H. unfold slice_from. cbn [Z.ltb Z.compare].
    rewrite len_skipn. lia. }
  unfold reset. cbn [speech_rms_history].
  destruct (Z.ltb_spec 100 (len (speech_rms_history t))) as [Hl|Hl];
    cbv iota.
  - split; [rewrite Hcut by exact Hl; lia|].
    split; [|split; [lia|]].
    + intros _. split; [apply Hcut, Hl|].
      unfold slice_from. cbn [Z.ltb Z.compare].
      eexists. symmetry. apply firstn_skipn.
    + assert (Hg : (100 <? len (slice_from (-50) (speech_rms_history t)))
                   = false)
        by (apply Z.ltb_ge; rewrite Hcut by exact Hl; lia).
      cbn [speech_rms_history average_speech_rms]. rewrite Hg. reflexivity.
  - split; [lia|]. split; [lia|]. split; [reflexivity|].
    cbn. destruct (Z.ltb_spec 100 (len (speech_rms_history t))); [lia|].
    reflexivity.
Qed.

(** X16.  The history is a queue of capacity 50: below capacity the new
    value is appended, at capacity the oldest entry is dropped and the new
    value appended; the new value is always the last entry. *)
Theorem push_history_fifo (h : list Q) (r : Q) :
  (len h < 50 -> push_history h r = (h ++ [r])%list) /\
  (50 <= len h -> push_history h r = (tl h ++ [r])%list) /\
  last (push_history h r) 0%Q = r.
Proof.
  assert (Hl : len (h ++ [r]) = len h + 1) by (rewrite len_app; reflexivity).
  unfold push_history.
  destruct (Z.ltb_spec 50 (len (h ++ [r]))) as [Hc|Hc].
  - split; [lia|].
    assert (E : tl (h ++ [r]) = (tl h ++ [r])%list).
    { destruct h as [|x h']; [|reflexivity].
      unfold len in Hc. simpl in Hc. lia. }
    split; [intros _; exact E|].
    rewrite E. apply last_last.
  - split; [reflexivity|]. split; [lia|]. apply last_last.
Qed.

(** X17.  The commit policy only becomes more willing: once it fires it
    keeps firing as the sample count grows, a pause can only help, and a
    forced commit is always allowed by the minimum chunk size. *)
Theorem commit_policy_monotone (t : ChunkTracker) (cur cur' : Z)
        (has_pause : bool) :
  (should_commit t cur has_pause = true -> cur <= cur' ->
   should_commit t cur' has_pause = true) /\
  (should_commit t cur false = true -> should_commit t cur true = true) /\
  (should_force_commit t cur = true -> should_commit t cur has_pause = true).
Proof.
  unfold should_commit, should_force_commit, FORCE_COMMIT_SAMPLES,
    FORCE_COMMIT_SECONDS, SAMPLE_RATE, MIN_CHUNK_SAMPLES.
  change (8 * 16000) with 128000.
  split; [|split].
  - destruct (Z.ltb_spec (cur - last_commit_sample t) 12800) as [Hlt|Hge];
      [discriminate|].
    intros Hfire Hle.
    destruct (Z.ltb_spec (cur' - last_commit_sample t) 12800) as [Hlt'|Hge'];
      [lia|].
    destruct has_pause; [reflexivity|]. cbn [orb] in *.
    apply Z.leb_le in Hfire. apply Z.leb_le. lia.
  - destruct (Z.ltb_spec (cur - last_commit_sample t) 12800) as [Hlt|Hge];
      [discriminate|reflexivity].
  - intros Hforce. rewrite Hforce. apply Z.leb_le in Hforce.
    destruct (Z.ltb_spec (cur - last_commit_sample t) 12800) as [Hlt|Hge];
      [lia|].
    apply orb_true_r.
Qed.

(** ** The text filter *)

Lemma collapse_ws_in_run_no_leading_space (s : string) :
  starts_with_whitespace (collapse_ws true s) = false.
Proof.
  induction s as [|c r IH]; [reflexivity|].
  simpl. destruct (is_space c) eqn:E; [exact IH|]. simpl. exact E.
Qed.

Lemma collapse_ws_single_spaced (s : string) :
  forall b : bool, single_spaced (collapse_ws b s) = true.
Proof.
  induction s as [|c r IH]; intros b; [reflexivity|].
  simpl. destruct (is_space c) eqn:E.
  - destruct b; [apply IH|].
    simpl. rewrite collapse_ws_in_run_no_leading_space. apply IH.
  - simpl. rewrite E. apply IH.
Qed.

Lemma single_spaced_lstrip (s : string) :
  single_spaced s = true -> single_spaced (lstrip s) = true.
Proof.
  induction s as [|c r IH]; [reflexivity|].
  intros H. simpl. destruct (is_space c) eqn:E; [|exact H].
  apply IH. simpl in H. apply andb_true_iff in H. apply H.
Qed.

Lemma single_spaced_rstrip (s : string) :
  single_spaced s = true -> single_spaced (rstrip s) = true.
Proof.
  induction s as [|c r IH]; [reflexivity|].
  intros H. simpl in H. apply andb_true_iff in H. destruct H as [Hc Hr].
  specialize (IH Hr). simpl.
  destruct (rstrip r) as [|c' r'] eqn:E.
  - destruct (is_space c) eqn:Ec; [reflexivity|]. simpl. rewrite Ec. reflexivity.
  - change (single_spaced (String c (String c' r')))
      with ((if is_space c
             then Ascii.eqb c " "
                  && negb (starts_with_whitespace (String c' r'))
             else true) && single_spaced (String c' r')).
    rewrite IH, andb_true_r.
    destruct (is_space c); [|reflexivity].
    apply andb_true_iff in Hc. destruct Hc as [Hsp Hnext].
    rewrite Hsp. rewrite <- E.
    rewrite rstrip_keeps_head; [reflexivity|].
    destruct (starts_with_whitespace r); [discriminate|reflexivity].
Qed.

Lemma single_spaced_app (a b : string) :
  single_spaced a = true -> single_spaced b = true ->
  (ends_in_whitespace a = true -> starts_with_whitespace b = false) ->
  single_spaced (a ++ b) = true.
Proof.
  induction a as [|c r IH]; intros Ha Hb Hj; [exact Hb|].
  simpl in Ha. apply andb_true_iff in Ha. destruct Ha as [Hc Hr].
  simpl. apply andb_true_iff. split.
  - destruct (is_space c) eqn:Ec; [|reflexivity].
    apply andb_true_iff in Hc. destruct Hc as [Hsp Hnext].
    rewrite Hsp. simpl.
    destruct r as [|c' r'].
    + simpl. rewrite Hj; [reflexivity|]. unfold ends_in_whitespace. simpl.
      exact Ec.
    + exact Hnext.
  - apply IH; [exact Hr|exact Hb|].
    intros He. apply Hj. unfold ends_in_whitespace in *. simpl.
    destruct r; [discriminate|exact He].
Qed.

Lemma remove_unk_without_lt (s : string) :
  ~ In "<"%char (list_ascii_of_string s) -> remove_unk s = s.
Proof.
  induction s as [|c r IH]; intros Hn; [reflexivity|].
  assert (Hr : remove_unk r = r) by (apply IH; intros H; apply Hn; right; exact H).
  assert (Hc : c <> "<"%char) by (intros ->; apply Hn; left; reflexivity).
  destruct c as [[] [] [] [] [] [] [] []];
    try (exfalso; apply Hc; reflexivity);
    simpl; rewrite Hr; reflexivity.
Qed.

Lemma collapse_ws_single_spaced_id (s : string) :
  forall b : bool,
    single_spaced s = true ->
    (b = true -> starts_with_whitespace s = false) ->
    collapse_ws b s = s.
Proof.
  induction s as [|c r IH]; intros b Hs Hb; [reflexivity|].
  simpl in Hs. apply andb_true_iff in Hs. destruct Hs as [Hc Hr].
  simpl. destruct (is_space c) eqn:Ec.
  - apply andb_true_iff in Hc. destruct Hc as [Hsp Hnext].
    apply Ascii.eqb_eq in Hsp. subst c.
    destruct b; [specialize (Hb eq_refl); simpl in Hb; discriminate|].
    f_equal. apply IH; [exact Hr|].
    intros _. destruct (starts_with_whitespace r); [discriminate|reflexivity].
  - f_equal. apply IH; [exact Hr|discriminate].
Qed.

Lemma filter_no_outer_space (text : string) :
  starts_with_whitespace (_filter_unk_tokens text) = false /\
  ends_in_whitespace (_filter_unk_tokens text) = false.
Proof.
  unfold _filter_unk_tokens. split.
  - apply strip_no_leading_space.
  - apply rstrip_no_trailing_space.
Qed.

Lemma filter_single_spaced (text : string) :
  single_spaced (_filter_unk_tokens text) = true.
Proof.
  unfold _filter_unk_tokens.
  apply single_spaced_rstrip, single_spaced_lstrip, collapse_ws_single_spaced.
Qed.

(** What [_transcribe_audio] returns is the filter of the stripped raw
    text. *)
Lemma transcribe_audio_returns (model : list Q -> Transcription)
      (audio : list Q) (text : string) :
  _transcribe_audio model audio = Returned text ->
  exists raw_text, model audio = Returned raw_text /\
                   text = _filter_unk_tokens (strip raw_text).
Proof.
  unfold _transcribe_audio. destruct (model audio) as [e|raw]; [discriminate|].
  intros H. injection H as <-. exists raw. split; reflexivity.
Qed.

(** X18.  The output of [_filter_unk_tokens] is normalised whatever the
    input: it neither begins nor ends with whitespace, its only whitespace
    characters are single spaces, and stripping it changes nothing. *)
Theorem filter_output_normalised (text : string) :
  starts_with_whitespace (_filter_unk_tokens text) = false /\
  ends_in_whitespace (_filter_unk_tokens text) = false /\
  single_spaced (_filter_unk_tokens text) = true /\
  strip (_filter_unk_tokens text) = _filter_unk_tokens text.
Proof.
  destruct (filter_no_outer_space text) as [Hs He].
  split; [exact Hs|]. split; [exact He|]. split.
  - apply filter_single_spaced.
  - apply strip_id; assumption.
Qed.

(** X19.  A text that is already clean passes the filter unchanged: no
    ['<'] character, no whitespace at either end, single spaces only. *)
Theorem filter_keeps_clean_text (text : string) :
  ~ In "<"%char (list_ascii_of_string text) ->
  starts_with_whitespace text = false ->
  ends_in_whitespace text = false ->
  single_spaced text = true ->
  _filter_unk_tokens text = text.
Proof.
  intros Hlt Hs He Hsp. unfold _filter_unk_tokens.
  rewrite remove_unk_without_lt by exact Hlt.
  rewrite collapse_ws_single_spaced_id; [|exact Hsp|discriminate].
  apply strip_id; assumption.
Qed.

(** X20.  Whenever [_transcribe_audio] returns, its text is the filter of
    the stripped raw text and is normalised: it neither begins nor ends
    with whitespace, it is single-spaced, and the trimming in [commit] and
    in the blank test leaves it as it is. *)
Theorem transcribe_audio_normalised (model : list Q -> Transcription)
        (audio : list Q) (text : string) :
  _transcribe_audio model audio = Returned text ->
  starts_with_whitespace text = false /\
  ends_in_whitespace text = false /\
  single_spaced text = true /\
  strip text = text /\
  exists raw_text, model audio = Returned raw_text /\
                   text = _filter_unk_tokens (strip raw_text).
Proof.
  intros H.
  destruct (transcribe_audio_returns model audio text H) as (raw & Hm & ->).
  destruct (filter_no_outer_space (strip raw)) as [Hs He].
  split; [exact Hs|]. split; [exact He|].
  split; [apply filter_single_spaced|].
  split; [apply strip_id; assumption|].
  exists raw. split; [exact Hm|reflexivity].
Qed.

Section SessionText.

Variable rms : list Q -> Q.

Lemma single_spaced_commit (t : ChunkTracker) (text : string) (pos : Z) :
  tracker_inv t ->
  single_spaced (committed_text t) = true ->
  single_spaced (strip text) = true ->
  single_spaced (committed_text (commit t text pos)) = true.
Proof.
  intros (_ & _ & _ & He & _) Hs Ht.
  rewrite commit_text. unfold commit_extension.
  destruct (truthy (strip text)); [|rewrite string_app_empty_r; exact Hs].
  apply single_spaced_app; [exact Hs| |rewrite He; discriminate].
  destruct (truthy (committed_text t) && negb (endswith_space (committed_text t)));
    [|exact Ht].
  apply (single_spaced_app " " (strip text)); [reflexivity|exact Ht|].
  intros _. apply strip_no_leading_space.
Qed.

(** X21.  When every request of a session is served by
    [_transcribe_audio], the committed text is single-spaced at every
    moment: its words are separated by exactly one space and it holds no
    other whitespace. *)
Theorem session_text_single_spaced (qs : list Request) :
  (forall q, In q qs ->
             exists model, req_transcribe q = _transcribe_audio model) ->
  forall t, In t (run rms new_tracker qs) ->
            single_spaced (committed_text t) = true.
Proof.
  intros Hq.
  assert (Hgen : forall t0,
             tracker_inv t0 -> single_spaced (committed_text t0) = true ->
             forall t, In t (run rms t0 qs) ->
                       single_spaced (committed_text t) = true).
  { induction qs as [|q qs' IH]; intros t0 Hinv Hs t Hin; [destruct Hin|].
    assert (Hstep : tracker_inv (tracker (serve rms t0 q)) /\
                    single_spaced (committed_text (tracker (serve rms t0 q)))
                    = true).
    { split; [apply (chunk_step rms); exact Hinv|].
      unfold serve.
      destruct (chunk_tracker_cases rms (req_transcribe q) t0 (req_audio q)
                                    (req_total_samples q))
        as [[E _]|[(_ & E & _)|(text & _ & Htr & _ & _ & E & _)]]; rewrite E.
      - exact Hs.
      - assert (Ht : committed_text (detected rms t0 (req_audio q))
                     = committed_text t0) by apply detect_silence_boundary.
        rewrite Ht. exact Hs.
      - destruct (Hq q (or_introl eq_refl)) as [model Hm].
        rewrite Hm in Htr.
        destruct (transcribe_audio_returns model
                    (uncommitted_of t0 (req_audio q)) text Htr)
          as (raw & _ & ->).
        destruct (filter_no_outer_space (strip raw)) as [Hfs Hfe].
        assert (Hid : strip (_filter_unk_tokens (strip raw))
                      = _filter_unk_tokens (strip raw))
          by (apply strip_id; assumption).
        pose proof (filter_single_spaced (strip raw)) as Hsp.
        apply single_spaced_commit.
        + apply detect_silence_inv. exact Hinv.
        + assert (Ht : committed_text (detected rms t0 (req_audio q))
                       = committed_text t0) by apply detect_silence_boundary.
          rewrite Ht. exact Hs.
        + rewrite Hid. exact Hsp. }
    destruct Hstep as [Hinv' Hs'].
    cbn [run] in Hin. destruct Hin as [<-|Hin]; [exact Hs'|].
    apply (IH (fun q' H' => Hq q' (or_intror H')) _ Hinv' Hs' t Hin). }
  apply Hgen; [exact new_tracker_inv|reflexivity].
Qed.

End SessionText.

(** ** The further properties on concrete sessions *)

Lemma transcribed_span_is_suffix_witness :
  let o := transcribe_buffer_chunked rms_q (says "hello") new_tracker
                                     quiet_second 16000 in
  In quiet_second (transcribed o) /\
  transcribed o = [quiet_second] /\
  4000 <= len quiet_second.
Proof.
  intros o.
  assert (H : In quiet_second (transcribed o))
    by (vm_compute; left; reflexivity).
  split; [exact H|].
  destruct (transcribed_span_is_suffix rms_q (says "hello") new_tracker
              quiet_second 16000 quiet_second H) as (H1 & H2 & _).
  split; [exact H1|exact H2].
Defined.

Lemma commit_on_policy_witness :
  let o := transcribe_buffer_chunked rms_q (says "hello") new_tracker
                                     quiet_second 16000 in
  In quiet_second (transcribed o) /\
  strip "hello" <> ""%string /\
  should_commit new_tracker 16000 (pause_flag rms_q new_tracker quiet_second)
  = true /\
  committed_samples (tracker o) = 16000 /\
  silence_sample_count (tracker o) = 0.
Proof.
  intros o.
  assert (H1 : In quiet_second (transcribed o))
    by (vm_compute; left; reflexivity).
  assert (H2 : strip "hello" <> ""%string) by (vm_compute; discriminate).
  assert (H3 : should_commit new_tracker 16000
                             (pause_flag rms_q new_tracker quiet_second) = true)
    by (vm_compute; reflexivity).
  split; [exact H1|]. split; [exact H2|]. split; [exact H3|].
  destruct (commit_on_policy rms_q (says "hello") new_tracker quiet_second
              16000 quiet_second "hello" H1 eq_refl H2 H3)
    as (_ & _ & Hc & _ & Hs).
  split; [exact Hc|exact Hs].
Defined.

Lemma no_commit_before_min_chunk_witness :
  8000 - last_commit_sample new_tracker < 12800 /\
  is_final_of (response (transcribe_buffer_chunked rms_q (says "hello")
                           new_tracker (tone 0 8000) 8000)) = false.
Proof.
  assert (H : 8000 - last_commit_sample new_tracker < 12800)
    by (vm_compute; reflexivity).
  split; [exact H|].
  exact (proj1 (no_commit_before_min_chunk rms_q (says "hello") new_tracker
                  (tone 0 8000) 8000 H)).
Defined.

Lemma force_commit_progress_witness :
  let o := transcribe_buffer_chunked rms_q (says "and so on") new_tracker
                                     loud_second 128000 in
  128000 <= 128000 - last_commit_sample new_tracker /\
  In loud_second (transcribed o) /\
  strip "and so on" <> ""%string /\
  is_final_of (response o) = true /\
  committed_samples (tracker o) = 128000.
Proof.
  intros o.
  assert (H0 : 128000 <= 128000 - last_commit_sample new_tracker)
    by (vm_compute; discriminate).
  assert (H1 : In loud_second (transcribed o))
    by (vm_compute; left; reflexivity).
  assert (H2 : strip "and so on" <> ""%string) by (vm_compute; discriminate).
  split; [exact H0|]. split; [exact H1|]. split; [exact H2|].
  destruct (force_commit_progress rms_q (says "and so on") new_tracker
              loud_second 128000 loud_second "and so on" H0 H1 eq_refl H2)
    as (Hf & Hc & _).
  split; [exact Hf|exact Hc].
Defined.

Lemma final_response_advances_witness :
  let o := transcribe_buffer_chunked rms_q (says "hello") new_tracker
                                     quiet_second 16000 in
  reachable rms_q new_tracker /\
  is_final_of (response o) = true /\
  committed_samples (tracker o) = 16000 /\
  committed_samples new_tracker + 12800 <= committed_samples (tracker o).
Proof.
  intros o.
  assert (H : is_final_of (response o) = true) by (vm_compute; reflexivity).
  split; [apply reach_new|]. split; [exact H|].
  destruct (final_response_advances rms_q (says "hello") new_tracker
              quiet_second 16000 (reach_new rms_q) H) as (H1 & H2 & _).
  split; [exact H1|exact H2].
Defined.

Lemma boundary_is_reported_count_witness :
  In after_hello (run rms_q new_tracker [hello_request; world_request]) /\
  (committed_samples after_hello = committed_samples new_tracker \/
   In (committed_samples after_hello)
      (map req_total_samples [hello_request; world_request])).
Proof.
  assert (H : In after_hello
                 (run rms_q new_tracker [hello_request; world_request]))
    by (vm_compute; left; reflexivity).
  split; [exact H|].
  exact (boundary_is_reported_count rms_q [hello_request; world_request]
           new_tracker after_hello H).
Defined.

Lemma reachable_tracker_shape_witness :
  reachable rms_q after_hello /\
  committed_samples after_hello = last_commit_sample after_hello /\
  0 <= committed_samples after_hello /\
  0 <= silence_sample_count after_hello /\
  pending_audio after_hello = None.
Proof.
  assert (H : reachable rms_q after_hello) by apply reach_chunk, reach_new.
  split; [exact H|].
  exact (reachable_tracker_shape rms_q after_hello H).
Defined.

Lemma silent_window_declares_pause_witness :
  reachable rms_q new_tracker /\
  (rms_q quiet_second < 15 # 1000)%Q /\
  5600 <= len quiet_second /\
  snd (detect_silence rms_q new_tracker quiet_second) = true.
Proof.
  assert (H1 : (rms_q quiet_second < 15 # 1000)%Q) by (vm_compute; reflexivity).
  assert (H2 : 5600 <= len quiet_second) by (vm_compute; discriminate).
  split; [apply reach_new|]. split; [exact H1|]. split; [exact H2|].
  exact (proj1 (silent_window_declares_pause rms_q new_tracker quiet_second
                  (reach_new rms_q) H1 H2)).
Defined.

Lemma no_commit_without_pause_or_force_witness :
  ~ (rms_q (tail_of (uncommitted_of new_tracker loud_second)) < 15 # 1000)%Q /\
  16000 - last_commit_sample new_tracker < 128000 /\
  is_final_of (response (transcribe_buffer_chunked rms_q (says "loud")
                           new_tracker loud_second 16000)) = false.
Proof.
  assert (H1 : ~ (rms_q (tail_of (uncommitted_of new_tracker loud_second))
                  < 15 # 1000)%Q) by (vm_compute; discriminate).
  assert (H2 : 16000 - last_commit_sample new_tracker < 128000)
    by (vm_compute; reflexivity).
  split; [exact H1|]. split; [exact H2|].
  exact (proj1 (no_commit_without_pause_or_force rms_q (says "loud")
                  new_tracker loud_second 16000 H1 H2)).
Defined.

Lemma transcribes_unless_noise_witness :
  reaches_detection new_tracker quiet_second /\
  ((rms_q (uncommitted_of new_tracker quiet_second) <= 15 # 1000)%Q ->
   transcribed (transcribe_buffer_chunked rms_q (says "hello") new_tracker
                                          quiet_second 16000)
   = [uncommitted_of new_tracker quiet_second]).
Proof.
  assert (H : reaches_detection new_tracker quiet_second)
    by (split; vm_compute; discriminate).
  split; [exact H|].
  exact (proj2 (proj2 (transcribes_unless_noise rms_q (says "hello")
                         new_tracker quiet_second 16000 H))).
Defined.

Lemma calibration_invariant_witness :
  reachable rms_q after_loud /\
  (forall x, In x (speech_rms_history after_loud) -> (3 # 100 < x)%Q).
Proof.
  assert (H : reachable rms_q after_loud) by apply reach_chunk, reach_new.
  split; [exact H|].
  exact (proj1 (calibration_invariant rms_q after_loud H)).
Defined.

Lemma committed_text_is_trimmed_witness :
  reachable rms_q after_hello /\
  strip (committed_text after_hello) = committed_text after_hello.
Proof.
  assert (H : reachable rms_q after_hello) by apply reach_chunk, reach_new.
  split; [exact H|].
  exact (proj2 (proj2 (committed_text_is_trimmed rms_q after_hello H))).
Defined.

Lemma filter_keeps_clean_text_witness :
  ~ In "<"%char (list_ascii_of_string "hello world") /\
  _filter_unk_tokens "hello world" = "hello world"%string.
Proof.
  assert (H : ~ In "<"%char (list_ascii_of_string "hello world")).
  { vm_compute. intros H.
    repeat (destruct H as [H|H]; [discriminate H|]). exact H. }
  split; [exact H|].
  exact (filter_keeps_clean_text "hello world" H eq_refl eq_refl eq_refl).
Defined.

Lemma transcribe_audio_normalised_witness :
  _transcribe_audio (says " hello  <unk> there ") quiet_second
  = Returned "hello there" /\
  strip "hello there" = "hello there"%string /\
  single_spaced "hello there" = true.
Proof.
  assert (H : _transcribe_audio (says " hello  <unk> there ") quiet_second
              = Returned "hello there") by reflexivity.
  split; [exact H|].
  destruct (transcribe_audio_normalised (says " hello  <unk> there ")
              quiet_second "hello there" H) as (_ & _ & Hsp & Hid & _).
  split; [exact Hid|exact Hsp].
Defined.

Lemma session_text_single_spaced_witness :
  (forall q, In q [filtered_request] ->
             exists model, req_transcribe q = _transcribe_audio model) /\
  In (tracker (serve rms_q new_tracker filtered_request))
     (run rms_q new_tracker [filtered_request]) /\
  single_spaced (committed_text
                   (tracker (serve rms_q new_tracker filtered_request)))
  = true.
Proof.
  assert (H1 : forall q, In q [filtered_request] ->
                         exists model,
                           req_transcribe q = _transcribe_audio model).
  { intros q [<-|[]]. exists (says " hello  <unk> there "). reflexivity. }
  assert (H2 : In (tracker (serve rms_q new_tracker filtered_request))
                  (run rms_q new_tracker [filtered_request]))
    by (left; reflexivity).
  split; [exact H1|]. split; [exact H2|].
  exact (session_text_single_spaced rms_q [filtered_request] H1 _ H2).
Defined.
